(** * alx-polly: poll mutation and vote integrity

    A shallow embedding of the server actions of
    [app/lib/actions/poll-actions.ts] ([createPoll], [getPollById],
    [submitVote], [deletePoll], [updatePoll]) together with a model of the
    two collaborators they talk to: the identity provider
    ([supabase.auth.getUser]) and the relational store (the tables [polls]
    and [votes] as the README declares them).

    Every call the source makes to a collaborator is one request; an action
    is a finite tree of requests whose continuations receive the answer.
    The same tree is given three readings: against the store model, one
    call at a time; against answers from anyone; and against the store
    model with the requests of several calls interleaved. *)

From Stdlib Require Import String Ascii List Bool Arith NArith ZArith QArith Qcanon Lia.
Import ListNotations.

Local Open Scope nat_scope.
Local Open Scope string_scope.

(** ** JavaScript strings

    A string is a sequence of code units; the model keeps the code units
    below 256, one [ascii] each, so [String.length] is [.length]. *)

(** White space as [String.prototype.trim] sees it, restricted to the code
    units below 256: TAB, LF, VT, FF, CR, SPACE and NO-BREAK SPACE. *)
Definition isWhiteSpace (c : ascii) : bool :=
  existsb (N.eqb (N_of_ascii c)) [9; 10; 11; 12; 13; 32; 160]%N.

Fixpoint trimStart (s : string) : string :=
  match s with
  | EmptyString => EmptyString
  | String c r => if isWhiteSpace c then trimStart r else s
  end.

Fixpoint trimEnd (s : string) : string :=
  match s with
  | EmptyString => EmptyString
  | String c r =>
      match trimEnd r with
      | EmptyString => if isWhiteSpace c then EmptyString else String c EmptyString
      | r' => String c r'
      end
  end.

(** [s.trim()] *)
Definition trim (s : string) : string := trimEnd (trimStart s).

(** [Boolean(s)] on a string: the empty string is the only falsy one. *)
Definition Boolean (s : string) : bool := negb (s =? "").

(** ** The poll identifier pattern

    [/^[0-9a-f]{8}-[0-9a-f]{4}-[1-5][0-9a-f]{3}-[89ab][0-9a-f]{3}-[0-9a-f]{12}$/i]
    has no alternation and no variable repetition: it is a sequence of 36
    character classes, anchored at both ends. *)

Definition between (lo hi : N) (c : ascii) : bool :=
  (lo <=? N_of_ascii c)%N && (N_of_ascii c <=? hi)%N.

(** [[0-9a-f]] under the [i] flag *)
Definition hexClass (c : ascii) : bool :=
  between 48 57 c || between 97 102 c || between 65 70 c.

(** [[1-5]] *)
Definition versionClass (c : ascii) : bool := between 49 53 c.

(** [[89ab]] under the [i] flag *)
Definition variantClass (c : ascii) : bool :=
  between 56 57 c || between 97 98 c || between 65 66 c.

Definition dashClass (c : ascii) : bool := (N_of_ascii c =? 45)%N.

Definition uuidRegex : list (ascii -> bool) :=
  repeat hexClass 8 ++ [dashClass] ++
  repeat hexClass 4 ++ [dashClass] ++
  [versionClass] ++ repeat hexClass 3 ++ [dashClass] ++
  [variantClass] ++ repeat hexClass 3 ++ [dashClass] ++
  repeat hexClass 12.

(** [regex.test(s)] for an anchored sequence of classes *)
Fixpoint test (regex : list (ascii -> bool)) (s : string) : bool :=
  match regex, s with
  | [], EmptyString => true
  | cls :: regex', String c s' => cls c && test regex' s'
  | _, _ => false
  end.

(** ** JavaScript numbers

    [optionIndex] is a [number].  Only comparisons are applied to it, so a
    finite number is kept as the rational it denotes. *)

Inductive number : Type :=
  | NaN
  | Infinity
  | NegInfinity
  | Finite (q : Q).

Definition Qlt_bool (x y : Q) : bool := negb (Qle_bool y x).

(** [a < b] *)
Definition lt (a b : number) : bool :=
  match a, b with
  | NaN, _ | _, NaN => false
  | Finite x, Finite y => Qlt_bool x y
  | NegInfinity, (Finite _ | Infinity) => true
  | Finite _, Infinity => true
  | _, _ => false
  end.

(** [a >= b] *)
Definition ge (a b : number) : bool :=
  match a, b with
  | NaN, _ | _, NaN => false
  | Finite x, Finite y => Qle_bool y x
  | Infinity, _ => true
  | _, NegInfinity => true
  | _, _ => false
  end.

Definition ofNat (n : nat) : number := Finite (inject_Z (Z.of_nat n)).

(** ** Rows, errors and answers *)

(** A row of [polls]: [id], [user_id], [question], [options]
    ([created_at] and [updated_at] are never read by the actions). *)
Record PollRow : Type := mkPoll {
  id : string;
  user_id : string;
  question : string;
  options : list string
}.

(** A row of [votes]: [poll_id], [user_id] (here [voter_id]),
    [option_index]; the column is [INTEGER]. *)
Record VoteRow : Type := mkVote {
  poll_id : string;
  voter_id : string;
  option_index : Z
}.

(** The [error] objects of the client library; only [.message] is read. *)
Record Error : Type := mkError { message : string }.

(** [{ data: { user }, error }] of [supabase.auth.getUser()] *)
Record User : Type := mkUser { uid : string }.

Record AuthResponse : Type := mkAuth {
  user : option User;
  userError : option Error
}.

(** [{ data, error }] of a query ending in [.single()]: a row, or an error. *)
Inductive Single (A : Type) : Type :=
  | Data (data : A)
  | NoData (error : Error).
Arguments Data {A} data.
Arguments NoData {A} error.

(** What the actions return: [{ error }] and [{ poll, error }]. *)
Record Result : Type := mkResult { error : option string }.
Record PollResult : Type := mkPollResult {
  poll : option PollRow;
  pollError : option string
}.

Definition ok : Result := mkResult None.
Definition fail (msg : string) : Result := mkResult (Some msg).

(** ** Requests and actions *)

Inductive Req : Type -> Type :=
  (** [supabase.auth.getUser()] *)
  | AuthGetUser : Req AuthResponse
  (** [from("polls").insert([{ user_id, question, options }])] *)
  | PollsInsert (user_id question : string) (options : list string)
      : Req (option Error)
  (** [from("polls").select("*").eq("id", id).single()] *)
  | PollsSelect (id : string) : Req (Single PollRow)
  (** [from("polls").select("options").eq("id", id).single()] *)
  | PollsSelectOptions (id : string) : Req (Single (list string))
  (** [from("votes").select("id").eq("poll_id", p).eq("user_id", u).single()] *)
  | VotesSelect (poll_id user_id : string) : Req (Single VoteRow)
  (** [from("votes").insert([{ poll_id, user_id, option_index }])] *)
  | VotesInsert (poll_id user_id : string) (option_index : number)
      : Req (option Error)
  (** [from("polls").delete().eq("id", id).eq("user_id", u)] *)
  | PollsDelete (id user_id : string) : Req (option Error)
  (** [from("polls").update({ question, options }).eq("id", id).eq("user_id", u)] *)
  | PollsUpdate (question : string) (options : list string)
      (id user_id : string) : Req (option Error)
  (** [revalidatePath(path)] *)
  | RevalidatePath (path : string) : Req unit.

Inductive Action (R : Type) : Type :=
  | Ret (r : R)
  | Call {A : Type} (q : Req A) (k : A -> Action R).
Arguments Ret {R} r.
Arguments Call {R A} q k.

Notation "'await' x <- q ;; k" := (Call q (fun x => k))
  (at level 10, x name, q at level 99, k at level 200).

(** ** FormData *)

Definition FormData : Type := list (string * string).

(** [formData.get(name)]: the first value under [name], or [null]. *)
Fixpoint get (formData : FormData) (name : string) : option string :=
  match formData with
  | [] => None
  | (n, v) :: rest => if n =? name then Some v else get rest name
  end.

(** [formData.getAll(name)] *)
Definition getAll (formData : FormData) (name : string) : list string :=
  map snd (filter (fun e => fst e =? name) formData).

(** ** Messages

    The error kinds of the specification are the messages of the source. *)

Definition EmptyQuestion := "Poll question is required.".
Definition QuestionTooLong := "Poll question must be less than 500 characters.".
Definition TooFewOptions := "Please provide at least two options.".
Definition TooManyOptions := "Maximum 10 options allowed.".
Definition EmptyOption := "All options must have content.".
Definition OptionTooLong := "Each option must be less than 200 characters.".
Definition MalformedId := "Invalid poll ID format.".
Definition PollNotFound := "Poll not found.".
Definition InvalidOptionIndex := "Invalid option selected.".
Definition AlreadyVoted := "You have already voted on this poll.".

(** [Unauthenticated] has one message per action. *)
Definition Unauthenticated (r : Result) : Prop :=
  In (error r)
    [ Some "You must be logged in to create a poll.";
      Some "You must be logged in to vote.";
      Some "You must be logged in to delete a poll.";
      Some "You must be logged in to update a poll." ].

(** ** The actions *)

(** The body of [for (const option of options) { ... }], shared by
    [createPoll] and [updatePoll]: the first [return] reached, if any. *)
Fixpoint forEachOption (options : list string) : option Result :=
  match options with
  | [] => None
  | opt :: rest =>
      if (String.length (trim opt) =? 0)%nat then Some (fail EmptyOption)
      else if (200 <? String.length opt)%nat then Some (fail OptionTooLong)
      else forEachOption rest
  end.

(** [!question || question.trim().length === 0] *)
Definition questionMissing (question : option string) : bool :=
  match question with
  | None => true
  | Some q => negb (Boolean q) || (String.length (trim q) =? 0)%nat
  end.

(** [question.length], [question.trim()] once [question] is known to be a
    string. *)
Definition theString (question : option string) : string :=
  match question with Some q => q | None => "" end.

Definition createPoll (formData : FormData) : Action Result :=
  let question := get formData "question" in
  let options := filter Boolean (getAll formData "options") in
  if questionMissing question then Ret (fail EmptyQuestion)
  else if (500 <? String.length (theString question))%nat then Ret (fail QuestionTooLong)
  else if (length options <? 2)%nat then Ret (fail TooFewOptions)
  else if (10 <? length options)%nat then Ret (fail TooManyOptions)
  else match forEachOption options with
  | Some r => Ret r
  | None =>
  let sanitizedQuestion := trim (theString question) in
  let sanitizedOptions := map trim options in
  await auth <- AuthGetUser ;;
  match userError auth with
  | Some e => Ret (fail (message e))
  | None =>
  match user auth with
  | None => Ret (fail "You must be logged in to create a poll.")
  | Some u =>
  await error <- PollsInsert (uid u) sanitizedQuestion sanitizedOptions ;;
  match error with
  | Some e => Ret (fail (message e))
  | None => Ret ok
  end end end end.

Definition getPollById (id : string) : Action PollResult :=
  await auth <- AuthGetUser ;;
  await r <- PollsSelect id ;;
  match r with
  | NoData e => Ret (mkPollResult None (Some (message e)))
  | Data data => Ret (mkPollResult (Some data) None)
  end.

Definition submitVote (pollId : string) (optionIndex : number) : Action Result :=
  await auth <- AuthGetUser ;;
  match user auth with
  | None => Ret (fail "You must be logged in to vote.")
  | Some u =>
  await r <- PollsSelectOptions pollId ;;
  match r with
  | NoData pollError => Ret (fail PollNotFound)
  | Data pollOptions =>
  if lt optionIndex (ofNat 0) || ge optionIndex (ofNat (length pollOptions))
  then Ret (fail InvalidOptionIndex)
  else
  await existingVote <- VotesSelect pollId (uid u) ;;
  match existingVote with
  | Data _ => Ret (fail AlreadyVoted)
  | NoData _ =>
  await error <- VotesInsert pollId (uid u) optionIndex ;;
  match error with
  | Some e => Ret (fail (message e))
  | None => Ret ok
  end end end end.

Definition deletePoll (id : string) : Action Result :=
  await auth <- AuthGetUser ;;
  match userError auth with
  | Some e => Ret (fail (message e))
  | None =>
  match user auth with
  | None => Ret (fail "You must be logged in to delete a poll.")
  | Some u =>
  await error <- PollsDelete id (uid u) ;;
  match error with
  | Some e => Ret (fail (message e))
  | None =>
  await _ <- RevalidatePath "/polls" ;;
  Ret ok
  end end end.

Definition updatePoll (pollId : string) (formData : FormData) : Action Result :=
  let question := get formData "question" in
  let options := filter Boolean (getAll formData "options") in
  if questionMissing question then Ret (fail EmptyQuestion)
  else if (500 <? String.length (theString question))%nat then Ret (fail QuestionTooLong)
  else if (length options <? 2)%nat then Ret (fail TooFewOptions)
  else if (10 <? length options)%nat then Ret (fail TooManyOptions)
  else match forEachOption options with
  | Some r => Ret r
  | None =>
  if negb (test uuidRegex pollId) then Ret (fail MalformedId)
  else
  let sanitizedQuestion := trim (theString question) in
  let sanitizedOptions := map trim options in
  await auth <- AuthGetUser ;;
  match userError auth with
  | Some e => Ret (fail (message e))
  | None =>
  match user auth with
  | None => Ret (fail "You must be logged in to update a poll.")
  | Some u =>
  await error <- PollsUpdate sanitizedQuestion sanitizedOptions pollId (uid u) ;;
  match error with
  | Some e => Ret (fail (message e))
  | None => Ret ok
  end end end end.

(** ** The store

    The tables of the README schema.  [nextUuid] stands for the source of
    [gen_random_uuid()]: the n-th identifier handed out is [genUuid n]. *)

Record Store : Type := mkStore {
  polls : list PollRow;
  votes : list VoteRow;
  nextUuid : nat
}.

Definition hexDigit (n : N) : ascii :=
  ascii_of_N (if (n <? 10)%N then 48 + n else 87 + n).

Fixpoint hexDigits (len : nat) (n : N) : string :=
  match len with
  | O => ""
  | S len' => hexDigits len' (n / 16) ++ String (hexDigit (n mod 16)) ""
  end.

Definition genUuid (n : nat) : string :=
  "00000000-0000-4000-8000-" ++ hexDigits 12 (N.of_nat n).
Arguments genUuid : simpl never.

(** The columns [id], [user_id] and [poll_id] are UUID.  The store hands
    a uuid out in one spelling only, eight, four, four, four and twelve
    lower-case hexadecimal digits with hyphens between, and the identity
    provider gives user ids in that spelling too. *)
Definition lowerHexClass (c : ascii) : bool :=
  between 48 57 c || between 97 102 c.

Definition canonicalUuid : list (ascii -> bool) :=
  repeat lowerHexClass 8 ++ [dashClass] ++
  repeat lowerHexClass 4 ++ [dashClass] ++
  repeat lowerHexClass 4 ++ [dashClass] ++
  repeat lowerHexClass 4 ++ [dashClass] ++
  repeat lowerHexClass 12.

Definition canonical (i : string) : bool := test canonicalUuid i.

(** Row filters: [.eq("id", i)], [.eq("id", i).eq("user_id", u)],
    [.eq("poll_id", p).eq("user_id", u)].  The store compares uuids; for an
    identifier in the canonical spelling that is the comparison of the
    texts written here.  Another spelling of a uuid (upper case, without
    hyphens, in braces) and text that is no uuid at all are outside these
    filters: a statement about an identifier that is not the one of a
    stored row asks for [canonical]. *)
Definition withId (i : string) (p : PollRow) : bool := id p =? i.
Definition ownedBy (i u : string) (p : PollRow) : bool :=
  (id p =? i) && (user_id p =? u).
Definition votedBy (p u : string) (v : VoteRow) : bool :=
  (poll_id v =? p) && (voter_id v =? u).

(** [.single()]: exactly one row, or an error. *)
Definition single {A : Type} (rows : list A) : Single A :=
  match rows with
  | [row] => Data row
  | _ => NoData (mkError "JSON object requested, multiple (or no) rows returned")
  end.

Definition rejected (msg : string) (s : Store) : option Error * Store :=
  (Some (mkError msg), s).

Definition questionCheck (question : string) : bool :=
  (String.length question <=? 500)%nat.
Definition optionsCheck (options : list string) : bool :=
  (2 <=? length options)%nat && (length options <=? 10)%nat.

(** TEXT and JSONB hold no U+0000: a row with that code unit in its
    question or in one of its options is refused. *)
Fixpoint hasNul (s : string) : bool :=
  match s with
  | EmptyString => false
  | String c r => (N_of_ascii c =? 0)%N || hasNul r
  end.

Definition textCheck (question : string) (options : list string) : bool :=
  negb (hasNul question) && forallb (fun o => negb (hasNul o)) options.

Definition refusedText : string := "unsupported Unicode escape sequence".

(** INSERT into [polls]: the texts, the two CHECK constraints, then the
    primary key. *)
Definition pollsInsert (u q : string) (opts : list string) (s : Store)
  : option Error * Store :=
  if negb (textCheck q opts) then rejected refusedText s
  else if negb (questionCheck q) then
    rejected "new row for relation polls violates check constraint polls_question_check" s
  else if negb (optionsCheck opts) then
    rejected "new row for relation polls violates check constraint polls_options_check" s
  else
    let newId := genUuid (nextUuid s) in
    let s' := mkStore (polls s) (votes s) (S (nextUuid s)) in
    if existsb (withId newId) (polls s) then
      rejected "duplicate key value violates unique constraint polls_pkey" s'
    else
      (None, mkStore (polls s ++ [mkPoll newId u q opts]) (votes s) (S (nextUuid s))).

Definition duplicateVote : string :=
  "duplicate key value violates unique constraint votes_poll_id_user_id_key".

(** INSERT into [votes].  [NaN] and the infinities travel as JSON [null];
    the column is [INTEGER NOT NULL CHECK (option_index >= 0)], the pair
    [(poll_id, user_id)] is UNIQUE and [poll_id] REFERENCES [polls]. *)
Definition votesInsert (p u : string) (n : number) (s : Store)
  : option Error * Store :=
  match n with
  | Finite q =>
      let r := Qred q in
      if negb (Z.pos (Qden r) =? 1)%Z then
        rejected "invalid input syntax for type integer" s
      else if negb ((-2147483648 <=? Qnum r)%Z && (Qnum r <=? 2147483647)%Z) then
        rejected "value is out of range for type integer" s
      else if (Qnum r <? 0)%Z then
        rejected "new row for relation votes violates check constraint votes_option_index_check" s
      else if existsb (votedBy p u) (votes s) then
        rejected duplicateVote s
      else if negb (existsb (withId p) (polls s)) then
        rejected "insert on table votes violates foreign key constraint votes_poll_id_fkey" s
      else
        (None, mkStore (polls s) (votes s ++ [mkVote p u (Qnum r)]) (nextUuid s))
  | _ =>
      rejected "null value in column option_index of relation votes violates not-null constraint" s
  end.

(** DELETE from [polls] with both filters; votes of a deleted poll go with
    it (ON DELETE CASCADE).  No matching row is not an error. *)
Definition pollsDelete (i u : string) (s : Store) : option Error * Store :=
  if existsb (ownedBy i u) (polls s) then
    (None, mkStore (filter (fun p => negb (ownedBy i u p)) (polls s))
                   (filter (fun v => negb (poll_id v =? i)) (votes s))
                   (nextUuid s))
  else (None, s).

(** UPDATE of [polls] with both filters; the new texts and the CHECK
    constraints are looked at for the row that matches.  No matching row
    is not an error. *)
Definition pollsUpdate (q : string) (opts : list string) (i u : string)
  (s : Store) : option Error * Store :=
  if existsb (ownedBy i u) (polls s) then
    if negb (textCheck q opts) then rejected refusedText s
    else if negb (questionCheck q) then
      rejected "new row for relation polls violates check constraint polls_question_check" s
    else if negb (optionsCheck opts) then
      rejected "new row for relation polls violates check constraint polls_options_check" s
    else
      (None, mkStore (map (fun p => if ownedBy i u p
                                    then mkPoll (id p) (user_id p) q opts
                                    else p) (polls s))
                     (votes s) (nextUuid s))
  else (None, s).

(** One request, on behalf of the caller whose identity the provider
    reports as [who].  The row-level
    policies of the schema compare [auth.uid()] with [user_id], which the
    actions always fill with the caller's own id, and let everyone read;
    they never bite and are left out. *)
Definition handle (who : AuthResponse) {A : Type} (q : Req A) (s : Store)
  : A * Store :=
  match q in Req T return T * Store with
  | AuthGetUser => (who, s)
  | PollsInsert u qn opts => pollsInsert u qn opts s
  | PollsSelect i => (single (filter (withId i) (polls s)), s)
  | PollsSelectOptions i => (single (map options (filter (withId i) (polls s))), s)
  | VotesSelect p u => (single (filter (votedBy p u) (votes s)), s)
  | VotesInsert p u n => votesInsert p u n s
  | PollsDelete i u => pollsDelete i u s
  | PollsUpdate qn opts i u => pollsUpdate qn opts i u s
  | RevalidatePath _ => (tt, s)
  end.

(** ** Three readings of an action *)

(** One call on its own: every request is answered by the store at once. *)
Fixpoint run {R : Type} (who : AuthResponse) (a : Action R) (s : Store)
  : R * Store :=
  match a with
  | Ret r => (r, s)
  | Call q k => let (x, s') := handle who q s in run who (k x) s'
  end.

(** A request with its answer. *)
Inductive Event : Type :=
  | Ev {A : Type} (q : Req A) (x : A).

(** The events of [run]. *)
Fixpoint events {R : Type} (who : AuthResponse) (a : Action R) (s : Store)
  : list Event :=
  match a with
  | Ret _ => []
  | Call q k => let (x, s') := handle who q s in Ev q x :: events who (k x) s'
  end.









Definition count {A : Type} (f : A -> bool) (l : list A) : nat :=
  length (filter f l).


(** Answers from anyone: [o] says what each request is answered with. *)
Fixpoint runWith {R : Type} (o : forall A : Type, Req A -> A) (a : Action R) : R :=
  match a with
  | Ret r => r
  | Call q k => runWith o (k (o _ q))
  end.

(** ** Auxiliary views of the actions *)

Definition questionOf (formData : FormData) : string :=
  theString (get formData "question").
Definition optionsOf (formData : FormData) : list string :=
  filter Boolean (getAll formData "options").

(** The [return] that [createPoll] (lines 14-38) and [updatePoll] (lines
    199-223) reach before any request, if they reach one. *)
Definition payloadReturn (formData : FormData) : option Result :=
  if questionMissing (get formData "question") then Some (fail EmptyQuestion)
  else if (500 <? String.length (questionOf formData))%nat then Some (fail QuestionTooLong)
  else if (length (optionsOf formData) <? 2)%nat then Some (fail TooFewOptions)
  else if (10 <? length (optionsOf formData))%nat then Some (fail TooManyOptions)
  else forEachOption (optionsOf formData).

(** A payload that passes every check, said positively. *)
Definition goodText (limit : nat) (s : string) : bool :=
  negb (trim s =? "") && (String.length s <=? limit)%nat.

Definition validPayload (formData : FormData) : bool :=
  match get formData "question" with
  | None => false
  | Some q => goodText 500 q
  end
  && (2 <=? length (optionsOf formData))%nat
  && (length (optionsOf formData) <=? 10)%nat
  && forallb (goodText 200) (optionsOf formData).

(** The kinds a payload check can return. *)
Definition payloadKinds : list string :=
  [EmptyQuestion; QuestionTooLong; TooFewOptions; TooManyOptions;
   EmptyOption; OptionTooLong].

(** [o] is the first option, in order, that is blank or longer than 200. *)
Definition firstBadOption (opts : list string) (o : string) : Prop :=
  exists pre post,
    opts = (pre ++ o :: post)%list
    /\ forallb (goodText 200) pre = true /\ goodText 200 o = false.

(** What is left of [createPoll] (lines 40-68) and of [updatePoll] (lines
    231-258) once the payload, and for [updatePoll] the identifier, have
    passed. *)
Definition createPollRest (formData : FormData) : Action Result :=
  await auth <- AuthGetUser ;;
  match userError auth with
  | Some e => Ret (fail (message e))
  | None =>
  match user auth with
  | None => Ret (fail "You must be logged in to create a poll.")
  | Some u =>
  await error <- PollsInsert (uid u) (trim (questionOf formData))
                   (map trim (optionsOf formData)) ;;
  match error with
  | Some e => Ret (fail (message e))
  | None => Ret ok
  end end end.

Definition updatePollRest (pollId : string) (formData : FormData) : Action Result :=
  await auth <- AuthGetUser ;;
  match userError auth with
  | Some e => Ret (fail (message e))
  | None =>
  match user auth with
  | None => Ret (fail "You must be logged in to update a poll.")
  | Some u =>
  await error <- PollsUpdate (trim (questionOf formData))
                   (map trim (optionsOf formData)) pollId (uid u) ;;
  match error with
  | Some e => Ret (fail (message e))
  | None => Ret ok
  end end end.

(** [submitVote] cut at its requests, last cut first: what is left of a
    call once no vote was found ([voteInsert], lines 151-160), once the
    poll was found and the index has passed ([voteExisting], lines
    139-149), once the caller is known ([votePoll], lines 125-137). *)
Definition voteInsert (pollId : string) (optionIndex : number) (u : User)
  : Action Result :=
  await error <- VotesInsert pollId (uid u) optionIndex ;;
  match error with
  | Some e => Ret (fail (message e))
  | None => Ret ok
  end.

Definition voteExisting (pollId : string) (optionIndex : number) (u : User)
  : Action Result :=
  await existingVote <- VotesSelect pollId (uid u) ;;
  match existingVote with
  | Data _ => Ret (fail AlreadyVoted)
  | NoData _ => voteInsert pollId optionIndex u
  end.

Definition votePoll (pollId : string) (optionIndex : number) (u : User)
  : Action Result :=
  await r <- PollsSelectOptions pollId ;;
  match r with
  | NoData pollError => Ret (fail PollNotFound)
  | Data pollOptions =>
  if lt optionIndex (ofNat 0) || ge optionIndex (ofNat (length pollOptions))
  then Ret (fail InvalidOptionIndex)
  else voteExisting pollId optionIndex u
  end.

(** [0 <= optionIndex < optionCount] *)
Definition inRange (optionIndex : number) (optionCount : nat) : bool :=
  ge optionIndex (ofNat 0) && lt optionIndex (ofNat optionCount).

(** ** Sample data *)

(** The identity provider's answer for a signed-in user. *)
Definition signedIn (u : User) : AuthResponse := mkAuth (Some u) None.

Definition alice : AuthResponse :=
  mkAuth (Some (mkUser "11111111-1111-4111-8111-111111111111")) None.
Definition bob : AuthResponse :=
  mkAuth (Some (mkUser "22222222-2222-4222-8222-222222222222")) None.
Definition nobody : AuthResponse := mkAuth None None.

(** The provider's answer when there is no session: no user, and an
    error. *)
Definition noSession : AuthResponse :=
  mkAuth None (Some (mkError "Auth session missing!")).

Definition colours : FormData :=
  [("question", " Favourite colour? "); ("options", "red");
   ("options", ""); ("options", " green"); ("options", "blue ")].

(** A payload that passes the checks of the actions with U+0000 in its
    first option. *)
Definition withNul : FormData :=
  [("question", "Favourite colour?");
   ("options", String "000"%char "red"); ("options", "green")].

Definition emptyStore : Store := mkStore [] [] 0.

(** The store after Alice has created the poll [colours]. *)
Definition oneBallot : Store :=
  mkStore [mkPoll (genUuid 0) "11111111-1111-4111-8111-111111111111"
             "Favourite colour?" ["red"; "green"; "blue"]] [] 1.

(** The store after Bob has voted for the second option. *)
Definition bobVoted : Store :=
  mkStore (polls oneBallot)
    [mkVote (genUuid 0) "22222222-2222-4222-8222-222222222222" 1] 1.

Fixpoint spaces (n : nat) : string :=
  match n with O => "" | S n' => String " " (spaces n') end.

(** ** Predicates on stored texts and payloads *)

(** A payload whose question and options the store can hold. *)
Definition storable (fd : FormData) : bool :=
  textCheck (questionOf fd) (optionsOf fd).

(** No white space at the start. *)
Definition noLeadingSpace (s : string) : Prop :=
  match s with
  | EmptyString => True
  | String c _ => isWhiteSpace c = false
  end.

(** Text as the actions store it: nothing left to trim, not empty, within
    the limit. *)
Definition tidyText (limit : nat) (s : string) : Prop :=
  trim s = s /\ s <> "" /\ String.length s <= limit.

Definition tidyPoll (p : PollRow) : Prop :=
  tidyText 500 (question p)
  /\ 2 <= length (options p) <= 10
  /\ Forall (tidyText 200) (options p).

(** The two ways a question fares in the payload checks. *)
Definition blankQuestion (fd : FormData) : Prop :=
  match get fd "question" with
  | None => True
  | Some q => trim q = ""
  end.

Definition goodQuestion (fd : FormData) : Prop :=
  exists q, get fd "question" = Some q /\ goodText 500 q = true.

(** ** Listing one's polls

    [getUserPolls] (lines 72-87) asks the store for rows, not for a single
    row: [from("polls").select("*").eq("user_id", u).order("created_at",
    { ascending: false })].  The store keeps [polls] in the order of
    insertion (inserts append, updates and deletes keep the order), which
    is the order of [created_at]; newest first is that order reversed. *)

(** [{ data, error }] of a query for rows. *)
Record Selected (A : Type) : Type := mkSelected {
  selectedData : option (list A);
  selectedError : option Error
}.
Arguments mkSelected {A} selectedData selectedError.
Arguments selectedData {A} s.
Arguments selectedError {A} s.

Inductive ListReq : Type -> Type :=
  (** [supabase.auth.getUser()] *)
  | ListGetUser : ListReq AuthResponse
  (** [from("polls").select("*").eq("user_id", u).order("created_at", ...)] *)
  | PollsSelectByUser (user_id : string) : ListReq (Selected PollRow).

Inductive Listing (R : Type) : Type :=
  | Listed (r : R)
  | Asks {A : Type} (q : ListReq A) (k : A -> Listing R).
Arguments Listed {R} r.
Arguments Asks {R A} q k.

Notation "'asks' x <- q ;; k" := (Asks q (fun x => k))
  (at level 10, x name, q at level 99, k at level 200).

(** [{ polls, error }] *)
Record UserPolls : Type := mkUserPolls {
  userPolls : list PollRow;
  userPollsError : option string
}.

Definition getUserPolls : Listing UserPolls :=
  asks auth <- ListGetUser ;;
  match user auth with
  | None => Listed (mkUserPolls [] (Some "Not authenticated"))
  | Some u =>
  asks r <- PollsSelectByUser (uid u) ;;
  match selectedError r with
  | Some e => Listed (mkUserPolls [] (Some (message e)))
  | None =>
      Listed (mkUserPolls
                (match selectedData r with Some data => data | None => [] end)
                None)
  end end.

Definition ownedRows (u : string) (s : Store) : list PollRow :=
  filter (fun p => user_id p =? u) (polls s).

(** The store's answer; reading changes nothing. *)
Definition answerListing (who : AuthResponse) {A : Type} (q : ListReq A)
  (s : Store) : A :=
  match q in ListReq T return T with
  | ListGetUser => who
  | PollsSelectByUser u => mkSelected (Some (rev (ownedRows u s))) None
  end.

Fixpoint runListing {R : Type} (who : AuthResponse) (a : Listing R) (s : Store)
  : R :=
  match a with
  | Listed r => r
  | Asks q k => runListing who (k (answerListing who q s)) s
  end.

Fixpoint runListingWith {R : Type} (o : forall A : Type, ListReq A -> A)
  (a : Listing R) : R :=
  match a with
  | Listed r => r
  | Asks q k => runListingWith o (k (o _ q))
  end.

(** ** The rate limiter

    [checkRateLimit] keeps, per key, an object [{ count, resetTime }] in a
    module-level [Map].  [Date.now()] is an argument here; times, counts
    and limits are whole numbers.  The object found in the map is changed
    in place, so what is done to it is seen in the map even where the
    source does not call [set]. *)

Module RateLimit.

Record Limits : Type := mkLimits {
  count : Z;
  resetTime : Z
}.

Definition Map : Type := list (string * Limits).

(** [rateLimits.get(key)] *)
Fixpoint get (rateLimits : Map) (key : string) : option Limits :=
  match rateLimits with
  | [] => None
  | (k, v) :: rest => if k =? key then Some v else get rest key
  end.

(** [rateLimits.set(key, value)] *)
Fixpoint set (rateLimits : Map) (key : string) (value : Limits) : Map :=
  match rateLimits with
  | [] => [(key, value)]
  | (k, v) :: rest =>
      if k =? key then (key, value) :: rest else (k, v) :: set rest key value
  end.

(** [{ allowed, remaining, resetTime }] *)
Record Verdict : Type := mkVerdict {
  allowed : bool;
  remaining : Z;
  until : Z
}.

(** [Number.isSafeInteger(x)].  The code computes with doubles; times,
    counts and limits are kept here as the integers they are, and a sum
    or difference of safe integers that is itself a safe integer is what
    the double computation gives.  A statement about the numbers of a
    verdict asks for that. *)
Definition isSafeInteger (x : Z) : bool :=
  (Z.abs x <=? 9007199254740991)%Z.

(** A parameter with a default value. *)
Definition orDefault (default : Z) (given : option Z) : Z :=
  match given with Some x => x | None => default end.

(** [`${userId}:${action}`] *)
Definition keyOf (userId action : string) : string :=
  userId ++ ":" ++ action.

Definition checkRateLimit (userId action : string)
  (maxAttempts windowMs : option Z) (now : Z) (rateLimits : Map)
  : Verdict * Map :=
  let maxAttempts := orDefault 5 maxAttempts in
  let windowMs := orDefault 60000 windowMs in
  let key := keyOf userId action in
  let found := get rateLimits key in
  let userLimits :=
    match found with
    | Some l => l
    | None => mkLimits 0 (now + windowMs)
    end in
  let userLimits :=
    if (resetTime userLimits <? now)%Z
    then mkLimits 0 (now + windowMs)
    else userLimits in
  let rateLimits :=
    match found with
    | Some _ => set rateLimits key userLimits
    | None => rateLimits
    end in
  if (maxAttempts <=? count userLimits)%Z then
    (mkVerdict false 0 (resetTime userLimits), rateLimits)
  else
    let userLimits := mkLimits (count userLimits + 1) (resetTime userLimits) in
    (mkVerdict true (maxAttempts - count userLimits) (resetTime userLimits),
     set rateLimits key userLimits).

(** The same call at each of the times, one after the other. *)
Fixpoint calls (userId action : string) (maxAttempts windowMs : option Z)
  (times : list Z) (rateLimits : Map) : list Verdict * Map :=
  match times with
  | [] => ([], rateLimits)
  | now :: later =>
      let (v, m) := checkRateLimit userId action maxAttempts windowMs now rateLimits in
      let (vs, m') := calls userId action maxAttempts windowMs later m in
      (v :: vs, m')
  end.

(** The verdict of the call that finds [seen] attempts counted. *)
Definition verdictAt (maxAttempts seen reset : Z) : Verdict :=
  if (maxAttempts <=? seen)%Z then mkVerdict false 0 reset
  else mkVerdict true (maxAttempts - (seen + 1)) reset.

Fixpoint hasColon (s : string) : bool :=
  match s with
  | EmptyString => false
  | String c r => (c =? ":")%char || hasColon r
  end.

End RateLimit.

(** ** The session middleware

    [updateSession] of [src/lib/supabase/middleware.ts] (lines 4-61).  The
    answer of [supabase.auth.getUser()] and the pathname of the request are
    its inputs; of the response only its kind is kept, and of the redirect
    URL only the pathname, the one part the code sets. *)

Module Middleware.

Inductive Response : Type :=
  | Next
  | Redirect (pathname : string).

(** [s.startsWith(searchString)] *)
Definition startsWith (s searchString : string) : bool :=
  String.prefix searchString s.

Definition isSome {A : Type} (x : option A) : bool :=
  match x with Some _ => true | None => false end.

Definition updateSession (auth : AuthResponse) (pathname : string) : Response :=
  let supabaseResponse := Next in
  let user := user auth in
  let isAuthPage :=
    startsWith pathname "/login"
    || startsWith pathname "/register"
    || startsWith pathname "/auth" in
  let isAdminRoute := startsWith pathname "/admin" in
  let isDashboardRoute :=
    startsWith pathname "/(dashboard)"
    || startsWith pathname "/create"
    || startsWith pathname "/polls" in
  if negb (isSome user) && negb isAuthPage then Redirect "/login"
  else if isAdminRoute && isSome user then supabaseResponse
  else supabaseResponse.

End Middleware.

(** ** The form that creates a poll

    The option list of [PollCreateForm]
    ([src/app/(dashboard)/create/PollCreateForm.tsx], lines 68-123), the
    controls the form renders for it (lines 165-200) and the form data it
    submits to [createPoll] (lines 127-136, 155-172).  Each input is
    handled against the options as they are rendered, one render per
    input. *)

Module PollCreateForm.

(** [useState(["", ""])] *)
Definition initialOptions : list string := [""; ""].

(** [opts.map((opt, i) => (i === idx ? value : opt))], from index [i] on *)
Fixpoint mapFrom (i idx : nat) (value : string) (opts : list string)
  : list string :=
  match opts with
  | [] => []
  | opt :: rest =>
      (if (i =? idx)%nat then value else opt) :: mapFrom (S i) idx value rest
  end.

Definition handleOptionChange (idx : nat) (value : string)
  (options : list string) : list string :=
  mapFrom 0 idx value options.

(** [[...opts, ""]] *)
Definition addOption (options : list string) : list string :=
  (options ++ [""])%list.

(** [opts.filter((_, i) => i !== idx)], from index [i] on *)
Fixpoint filterFrom (i idx : nat) (opts : list string) : list string :=
  match opts with
  | [] => []
  | opt :: rest =>
      if negb (i =? idx)%nat then opt :: filterFrom (S i) idx rest
      else filterFrom (S i) idx rest
  end.

Definition removeOption (idx : nat) (options : list string) : list string :=
  if (2 <? length options)%nat then filterFrom 0 idx options else options.

(** What a user can do to the option list. *)
Inductive Input : Type :=
  | Typed (idx : nat) (value : string)
  | AddClicked
  | RemoveClicked (idx : nat).

(** The handler an input reaches. *)
Definition handler (e : Input) (options : list string) : list string :=
  match e with
  | Typed idx value => handleOptionChange idx value options
  | AddClicked => addOption options
  | RemoveClicked idx => removeOption idx options
  end.

(** The control of an input is there to be used: one text field and, with
    more than two options, one Remove button per option; the Add button is
    [disabled={options.length >= 10}]. *)
Definition rendered (e : Input) (options : list string) : bool :=
  match e with
  | Typed idx _ => (idx <? length options)%nat
  | AddClicked => negb (10 <=? length options)%nat
  | RemoveClicked idx => (2 <? length options)%nat && (idx <? length options)%nat
  end.

Definition handleInput (options : list string) (e : Input) : list string :=
  if rendered e options then handler e options else options.

(** The options after the inputs, on the form and on the handlers alone. *)
Definition onForm (inputs : list Input) (options : list string) : list string :=
  fold_left handleInput inputs options.

Definition onHandlers (inputs : list Input) (options : list string)
  : list string :=
  fold_left (fun opts e => handler e opts) inputs options.

(** The entries of the submitted form: the input named question, then one
    input named options per option. *)
Definition formData (question : string) (options : list string) : FormData :=
  ("question", question) :: map (fun opt => ("options", opt)) options.

End PollCreateForm.

(** ** The validators of the guide

    [validatePollQuestion], [validateOptionIndex] and
    [validatePollOptions] as the best-practices guide gives them
    ([src/unnamed/part_004], lines 74-110); [None] is [null]. *)

Module Guide.

Definition validatePollQuestion (question : string) : option string :=
  if negb (Boolean question) || (String.length (trim question) =? 0)%nat
  then Some "Question is required"
  else if (500 <? String.length question)%nat
  then Some "Question must be less than 500 characters"
  else
    let sanitized := trim question in
    None.

(** [Number.isInteger(index)] *)
Definition isInteger (index : number) : bool :=
  match index with
  | Finite q => (Qden (Qred q) =? 1)%positive
  | _ => false
  end.

Definition validateOptionIndex (index maxOptions : number) : bool :=
  isInteger index && ge index (ofNat 0) && lt index maxOptions.

(** The body of [for (const option of options) { ... }]. *)
Fixpoint forEachOption (options : list string) : option string :=
  match options with
  | [] => None
  | option :: rest =>
      if negb (Boolean (trim option)) then Some "All options must have content"
      else if (200 <? String.length option)%nat
      then Some "Options must be under 200 characters"
      else forEachOption rest
  end.

Definition validatePollOptions (options : list string) : option string :=
  if (length options <? 2)%nat then Some "At least 2 options required"
  else if (10 <? length options)%nat then Some "Maximum 10 options allowed"
  else forEachOption options.

End Guide.

(** * Properties *)

(** ** Strings *)

Lemma trimStart_length (s : string) :
  String.length (trimStart s) <= String.length s.
Proof.
  induction s as [|c r IH]; simpl; [lia|].
  destruct (isWhiteSpace c); simpl; lia.
Qed.

Lemma trimEnd_length (s : string) :
  String.length (trimEnd s) <= String.length s.
Proof.
  induction s as [|c r IH]; simpl; [lia|].
  destruct (trimEnd r) as [|c' r'].
  - destruct (isWhiteSpace c); simpl; lia.
  - simpl in *. lia.
Qed.

Lemma trim_length (s : string) : String.length (trim s) <= String.length s.
Proof.
  unfold trim.
  pose proof (trimEnd_length (trimStart s)).
  pose proof (trimStart_length s). lia.
Qed.

Lemma length_zero_iff (s : string) :
  (String.length s =? 0)%nat = (s =? "").
Proof. destruct s; reflexivity. Qed.

Lemma goodText_spec (limit : nat) (s : string) :
  goodText limit s = true <->
  (String.length (trim s) =? 0)%nat = false /\ (limit <? String.length s)%nat = false.
Proof.
  unfold goodText. rewrite length_zero_iff, andb_true_iff, negb_true_iff.
  rewrite Nat.leb_le, Nat.ltb_ge. tauto.
Qed.

Lemma goodText_Boolean (limit : nat) (s : string) :
  goodText limit s = true -> Boolean s = true.
Proof.
  unfold goodText, Boolean. destruct s; [discriminate | reflexivity].
Qed.

Example trim_both_ends : trim "  Favourite colour? " = "Favourite colour?".
Proof. reflexivity. Qed.

Example trim_keeps_inner_space : trim (String "009"%char "a b ") = "a b".
Proof. reflexivity. Qed.

Example trim_blank : trim (spaces 3) = "".
Proof. reflexivity. Qed.

Example uuidRegex_documented_id :
  test uuidRegex "123e4567-e89b-12d3-a456-426614174000" = true.
Proof. reflexivity. Qed.

Example uuidRegex_ignores_case :
  test uuidRegex "123E4567-E89B-12D3-A456-426614174000" = true.
Proof. reflexivity. Qed.

Example uuidRegex_wants_a_version :
  test uuidRegex "123e4567-e89b-02d3-a456-426614174000" = false.
Proof. reflexivity. Qed.

Lemma test_app (r1 r2 : list (ascii -> bool)) (s1 s2 : string) :
  test r1 s1 = true -> test r2 s2 = true -> test (r1 ++ r2) (s1 ++ s2) = true.
Proof.
  revert s1. induction r1 as [|cls r1 IH]; intros [|c s1]; simpl;
    try discriminate; [auto|].
  rewrite !andb_true_iff. intros [Hc H1] H2. auto.
Qed.

Lemma hexDigit_hex (d : N) : (d < 16)%N -> hexClass (hexDigit d) = true.
Proof.
  intros H. destruct d as [|p]; [reflexivity|].
  do 4 (destruct p as [p|p|]; try reflexivity); lia.
Qed.

Lemma hexDigits_hex (len : nat) (n : N) :
  test (repeat hexClass len) (hexDigits len n) = true.
Proof.
  revert n. induction len as [|len IH]; intros n; [reflexivity|].
  change (repeat hexClass (S len)) with (hexClass :: repeat hexClass len).
  rewrite repeat_cons. cbn [hexDigits]. apply test_app; [apply IH|].
  simpl. rewrite hexDigit_hex; [reflexivity|].
  apply N.mod_lt. discriminate.
Qed.

(** The identifiers the store hands out are identifiers for [updatePoll]. *)
Lemma uuidRegex_genUuid (n : nat) : test uuidRegex (genUuid n) = true.
Proof.
  unfold genUuid.
  change uuidRegex with
    (firstn 24 uuidRegex ++ repeat hexClass 12)%list.
  apply test_app; [reflexivity | apply hexDigits_hex].
Qed.

(** ** The payload checks *)

Lemma forEachOption_None (opts : list string) :
  forEachOption opts = None <-> forallb (goodText 200) opts = true.
Proof.
  induction opts as [|o rest IH]; simpl; [tauto|].
  rewrite andb_true_iff, goodText_spec, <- IH.
  destruct (String.length (trim o) =? 0)%nat; [intuition discriminate|].
  destruct (200 <? String.length o)%nat; intuition discriminate.
Qed.

Lemma payloadReturn_None (fd : FormData) :
  payloadReturn fd = None <-> validPayload fd = true.
Proof.
  unfold payloadReturn, validPayload, questionOf.
  rewrite !andb_true_iff, <- forEachOption_None, !Nat.leb_le.
  destruct (get fd "question") as [q|]; simpl.
  - rewrite goodText_spec.
    destruct (Boolean q) eqn:Bq; simpl.
    + destruct (String.length (trim q) =? 0)%nat; [intuition discriminate|].
      destruct (500 <? String.length q)%nat; [intuition discriminate|].
      destruct (Nat.ltb_spec (length (optionsOf fd)) 2);
        [split; [discriminate | lia]|].
      destruct (Nat.ltb_spec 10 (length (optionsOf fd)));
        [split; [discriminate | lia]|].
      intuition.
    + unfold Boolean in Bq. apply negb_false_iff, String.eqb_eq in Bq. subst q.
      simpl. intuition discriminate.
  - intuition discriminate.
Qed.

Lemma createPoll_payload (fd : FormData) :
  createPoll fd =
  match payloadReturn fd with
  | Some r => Ret r
  | None => createPollRest fd
  end.
Proof.
  unfold createPoll, payloadReturn, createPollRest, questionOf, optionsOf.
  repeat match goal with
         | |- context [if ?b then _ else _] => destruct b; try reflexivity
         end.
Qed.

Lemma updatePoll_payload (pollId : string) (fd : FormData) :
  updatePoll pollId fd =
  match payloadReturn fd with
  | Some r => Ret r
  | None => if test uuidRegex pollId then updatePollRest pollId fd
            else Ret (fail MalformedId)
  end.
Proof.
  unfold updatePoll, payloadReturn, updatePollRest, questionOf, optionsOf.
  repeat match goal with
         | |- context [if questionMissing ?b then _ else _] =>
             destruct (questionMissing b); try reflexivity
         | |- context [if (?a <? ?b)%nat then _ else _] =>
             destruct (a <? b)%nat; try reflexivity
         end.
  destruct (forEachOption _); [reflexivity|].
  destruct (test uuidRegex pollId); reflexivity.
Qed.

Lemma createPoll_valid (fd : FormData) :
  validPayload fd = true -> createPoll fd = createPollRest fd.
Proof.
  intros V. apply payloadReturn_None in V.
  rewrite createPoll_payload, V. reflexivity.
Qed.

Lemma updatePoll_valid (pollId : string) (fd : FormData) :
  validPayload fd = true -> test uuidRegex pollId = true ->
  updatePoll pollId fd = updatePollRest pollId fd.
Proof.
  intros V U. apply payloadReturn_None in V.
  rewrite updatePoll_payload, V, U. reflexivity.
Qed.

Lemma submitVote_points (pollId : string) (n : number) :
  submitVote pollId n =
  await auth <- AuthGetUser ;;
  match user auth with
  | None => Ret (fail "You must be logged in to vote.")
  | Some u => votePoll pollId n u
  end.
Proof. reflexivity. Qed.

Lemma forEachOption_kinds (opts : list string) (r : Result) :
  forEachOption opts = Some r -> r = fail EmptyOption \/ r = fail OptionTooLong.
Proof.
  induction opts as [|o rest IH]; simpl; [discriminate|].
  destruct (String.length (trim o) =? 0)%nat; [intros [= <-]; auto|].
  destruct (200 <? String.length o)%nat; [intros [= <-]; auto | exact IH].
Qed.

Lemma payloadReturn_kinds (fd : FormData) (r : Result) :
  payloadReturn fd = Some r -> exists msg, In msg payloadKinds /\ r = fail msg.
Proof.
  unfold payloadReturn, payloadKinds.
  destruct (questionMissing _); [intros [= <-]; eexists; simpl; eauto|].
  destruct (_ <? _)%nat; [intros [= <-]; eexists; simpl; eauto|].
  destruct (_ <? _)%nat; [intros [= <-]; eexists; simpl; eauto|].
  destruct (_ <? _)%nat; [intros [= <-]; eexists; simpl; eauto 6|].
  intros H. apply forEachOption_kinds in H as [-> | ->]; eexists; simpl; eauto 8.
Qed.

Lemma createPoll_Ret (fd : FormData) (r : Result) :
  createPoll fd = Ret r <-> payloadReturn fd = Some r.
Proof.
  rewrite createPoll_payload.
  destruct (payloadReturn fd) as [r'|]; split;
    try (intros [= ->]; reflexivity); discriminate.
Qed.

Lemma updatePoll_Ret (pollId : string) (fd : FormData) (r : Result) :
  updatePoll pollId fd = Ret r <->
  payloadReturn fd = Some r \/
  (payloadReturn fd = None /\ test uuidRegex pollId = false /\ r = fail MalformedId).
Proof.
  rewrite updatePoll_payload.
  destruct (payloadReturn fd) as [r'|].
  - split; [intros [= ->]; auto | intros [[= ->] | [H _]]; [reflexivity | discriminate]].
  - destruct (test uuidRegex pollId); split.
    + discriminate.
    + intros [H | (_ & H & _)]; discriminate.
    + intros [= <-]; auto.
    + intros [H | (_ & _ & ->)]; [discriminate | reflexivity].
Qed.

Lemma Unauthenticated_create : Unauthenticated (fail "You must be logged in to create a poll.").
Proof. unfold Unauthenticated; simpl; auto. Qed.
Lemma Unauthenticated_vote : Unauthenticated (fail "You must be logged in to vote.").
Proof. unfold Unauthenticated; simpl; auto. Qed.
Lemma Unauthenticated_delete : Unauthenticated (fail "You must be logged in to delete a poll.").
Proof. unfold Unauthenticated; simpl; auto. Qed.
Lemma Unauthenticated_update : Unauthenticated (fail "You must be logged in to update a poll.").
Proof. unfold Unauthenticated; simpl; auto 6. Qed.

(** ** Where the principal is checked *)

Lemma payloadKinds_not_Unauthenticated (msg : string) :
  In msg (MalformedId :: payloadKinds) -> ~ Unauthenticated (fail msg).
Proof.
  unfold Unauthenticated, payloadKinds. cbn [In error fail].
  intros [<- | [<- | [<- | [<- | [<- | [<- | [<- | []]]]]]]];
    intros [H | [H | [H | [H | []]]]]; discriminate H.
Qed.

(** C4 (amended).  With no principal no action writes, and:
    [submitVote] answers [Unauthenticated] whatever its arguments and
    whatever else the identity provider reports; [deletePoll],
    [createPoll] and [updatePoll] look at the provider's error before the
    principal, so they return the message of that error when the provider
    reports one (as it does for a missing session) and [Unauthenticated]
    when it reports none.  [createPoll] and [updatePoll] check the payload,
    and [updatePoll] then the identifier, before they ask who calls: with
    an invalid payload they return the payload error, [updatePoll] with a
    valid payload and a malformed identifier returns [MalformedId], and
    neither of these is an [Unauthenticated] answer. *)
Theorem principal_check_position
  (w : AuthResponse) (s : Store) (pollId : string) (n : number) (fd : FormData) :
  user w = None ->
  (Unauthenticated (fst (run w (submitVote pollId n) s))
   /\ snd (run w (submitVote pollId n) s) = s)
  /\ (userError w = None ->
      Unauthenticated (fst (run w (deletePoll pollId) s))
      /\ snd (run w (deletePoll pollId) s) = s)
  /\ (userError w = None -> validPayload fd = true ->
      Unauthenticated (fst (run w (createPoll fd) s))
      /\ snd (run w (createPoll fd) s) = s)
  /\ (userError w = None -> validPayload fd = true -> test uuidRegex pollId = true ->
      Unauthenticated (fst (run w (updatePoll pollId fd) s))
      /\ snd (run w (updatePoll pollId fd) s) = s)
  /\ (validPayload fd = false ->
      exists msg, In msg payloadKinds /\ ~ Unauthenticated (fail msg)
        /\ createPoll fd = Ret (fail msg) /\ updatePoll pollId fd = Ret (fail msg))
  /\ (validPayload fd = true -> test uuidRegex pollId = false ->
      updatePoll pollId fd = Ret (fail MalformedId)
      /\ ~ Unauthenticated (fail MalformedId))
  /\ (forall e, userError w = Some e ->
      run w (deletePoll pollId) s = (fail (message e), s)
      /\ (validPayload fd = true ->
          run w (createPoll fd) s = (fail (message e), s))
      /\ (validPayload fd = true -> test uuidRegex pollId = true ->
          run w (updatePoll pollId fd) s = (fail (message e), s))).
Proof.
  intros Hu. split; [|split; [|split; [|split; [|split; [|split]]]]].
  - simpl. rewrite Hu. split; [apply Unauthenticated_vote | reflexivity].
  - intros He. simpl. rewrite He, Hu.
    split; [apply Unauthenticated_delete | reflexivity].
  - intros He V. rewrite (createPoll_valid _ V). simpl. rewrite He, Hu.
    split; [apply Unauthenticated_create | reflexivity].
  - intros He V Ui. rewrite (updatePoll_valid _ _ V Ui). simpl. rewrite He, Hu.
    split; [apply Unauthenticated_update | reflexivity].
  - intros V. destruct (payloadReturn fd) as [r|] eqn:P.
    + destruct (payloadReturn_kinds _ _ P) as (msg & Hin & ->).
      exists msg. split; [exact Hin|]. split; [|split].
      * apply payloadKinds_not_Unauthenticated. right. exact Hin.
      * apply createPoll_Ret, P.
      * apply updatePoll_Ret. left. exact P.
    + apply payloadReturn_None in P. congruence.
  - intros V Ui. split.
    + apply updatePoll_Ret. right. split; [apply payloadReturn_None, V|].
      split; [exact Ui | reflexivity].
    + apply payloadKinds_not_Unauthenticated. left. reflexivity.
  - intros e He. split; [|split].
    + simpl. rewrite He. reflexivity.
    + intros V. rewrite (createPoll_valid _ V). simpl. rewrite He. reflexivity.
    + intros V Ui. rewrite (updatePoll_valid _ _ V Ui). simpl. rewrite He.
      reflexivity.
Qed.

Lemma principal_check_position_witness :
  user nobody = None
  /\ Unauthenticated (fst (run nobody (submitVote (genUuid 0) (ofNat 0)) oneBallot))
  /\ Unauthenticated (fst (run nobody (deletePoll (genUuid 0)) oneBallot))
  /\ Unauthenticated (fst (run nobody (createPoll colours) oneBallot))
  /\ Unauthenticated (fst (run nobody (updatePoll (genUuid 0) colours) oneBallot))
  /\ user noSession = None
  /\ Unauthenticated (fst (run noSession (submitVote (genUuid 0) (ofNat 0)) oneBallot))
  /\ run noSession (deletePoll (genUuid 0)) oneBallot
     = (fail "Auth session missing!", oneBallot)
  /\ run noSession (createPoll colours) oneBallot
     = (fail "Auth session missing!", oneBallot)
  /\ run noSession (updatePoll (genUuid 0) colours) oneBallot
     = (fail "Auth session missing!", oneBallot)
  /\ updatePoll "7" colours = Ret (fail MalformedId).
Proof.
  pose (T := principal_check_position nobody oneBallot (genUuid 0) (ofNat 0)
               colours eq_refl).
  pose (N := principal_check_position noSession oneBallot (genUuid 0) (ofNat 0)
               colours eq_refl).
  pose (M := principal_check_position nobody oneBallot "7" (ofNat 0)
               colours eq_refl).
  split; [reflexivity|].
  split; [exact (proj1 (proj1 T))|].
  split; [exact (proj1 (proj1 (proj2 T) eq_refl))|].
  split; [exact (proj1 (proj1 (proj2 (proj2 T)) eq_refl eq_refl))|].
  split; [exact (proj1 (proj1 (proj2 (proj2 (proj2 T))) eq_refl eq_refl eq_refl))|].
  split; [reflexivity|].
  split; [exact (proj1 (proj1 N))|].
  pose (E := proj2 (proj2 (proj2 (proj2 (proj2 (proj2 N))))) _ eq_refl).
  split; [exact (proj1 E)|].
  split; [exact (proj1 (proj2 E) eq_refl)|].
  split; [exact (proj2 (proj2 E) eq_refl eq_refl)|].
  exact (proj1 (proj1 (proj2 (proj2 (proj2 (proj2 (proj2 M))))) eq_refl eq_refl)).
Defined.

(** C4, as stated, fails: called by nobody with a blank question,
    [createPoll] and [updatePoll] return [EmptyQuestion], which is not an
    [Unauthenticated] answer. *)
Lemma payload_checked_before_principal :
  run nobody (createPoll [("question", "   ")]) emptyStore
    = (fail EmptyQuestion, emptyStore)
  /\ run nobody (updatePoll (genUuid 0) [("question", "   ")]) emptyStore
    = (fail EmptyQuestion, emptyStore)
  /\ ~ Unauthenticated (fail EmptyQuestion).
Proof.
  split; [reflexivity|]. split; [reflexivity|].
  unfold Unauthenticated. simpl. intuition discriminate.
Qed.

(** ** Poll identifiers *)

Lemma test_length (regex : list (ascii -> bool)) (s : string) :
  test regex s = true -> String.length s = length regex.
Proof.
  revert s. induction regex as [|cls regex IH]; intros [|c s]; simpl;
    try discriminate; [reflexivity|].
  intros H. apply andb_true_iff in H as [_ H]. f_equal. auto.
Qed.

Lemma uuidRegex_36 (s : string) :
  test uuidRegex s = true -> String.length s = 36.
Proof. intros H. apply test_length in H. exact H. Qed.

(** C5 (amended).  [updatePoll], called with a payload that passes, returns
    [MalformedId] for every identifier the pattern rejects, and it does so
    before any request: nothing is asked of the identity provider or of the
    store. *)
Theorem updatePoll_malformed_id (pollId : string) (fd : FormData) :
  validPayload fd = true -> test uuidRegex pollId = false ->
  updatePoll pollId fd = Ret (fail MalformedId)
  /\ forall w s, run w (updatePoll pollId fd) s = (fail MalformedId, s)
                 /\ events w (updatePoll pollId fd) s = [].
Proof.
  intros V U.
  assert (E : updatePoll pollId fd = Ret (fail MalformedId)).
  { apply updatePoll_Ret. right. apply payloadReturn_None in V. auto. }
  split; [exact E|]. intros w s. rewrite E. split; reflexivity.
Qed.

Lemma updatePoll_malformed_id_witness :
  validPayload colours = true /\ test uuidRegex "poll-uuid-123" = false
  /\ updatePoll "poll-uuid-123" colours = Ret (fail MalformedId).
Proof.
  split; [reflexivity|]. split; [reflexivity|].
  exact (proj1 (updatePoll_malformed_id "poll-uuid-123" colours eq_refl eq_refl)).
Defined.

(** C5, as stated, fails: [updatePoll] with a blank question and a
    malformed identifier returns [EmptyQuestion], and [getPollById] hands a
    malformed identifier to the store. *)
Lemma identifier_not_always_checked :
  test uuidRegex "poll-uuid-123" = false
  /\ updatePoll "poll-uuid-123" [("question", "   ")] = Ret (fail EmptyQuestion)
  /\ EmptyQuestion <> MalformedId
  /\ (exists answer,
        events nobody (getPollById "poll-uuid-123") oneBallot
        = [Ev AuthGetUser nobody; Ev (PollsSelect "poll-uuid-123") answer])
  /\ pollError (fst (run nobody (getPollById "poll-uuid-123") oneBallot))
     <> Some MalformedId.
Proof.
  split; [reflexivity|]. split; [reflexivity|]. split; [discriminate|].
  split; [eexists; reflexivity | discriminate].
Qed.

(** ** Payload limits *)

Lemma questionMissing_false (q0 : option string) :
  questionMissing q0 = false <-> exists q, q0 = Some q /\ trim q <> "".
Proof.
  destruct q0 as [q|]; simpl.
  - rewrite orb_false_iff, negb_false_iff, length_zero_iff, String.eqb_neq.
    split.
    + intros [_ H]. eauto.
    + intros (q' & [= <-] & H). split; [|exact H].
      unfold Boolean. destruct q; [contradiction H; reflexivity | reflexivity].
  - split; [discriminate | intros (q & H & _); discriminate].
Qed.

Lemma goodText_false (limit : nat) (s : string) :
  goodText limit s = false <-> trim s = "" \/ limit < String.length s.
Proof.
  unfold goodText. rewrite andb_false_iff, negb_false_iff, String.eqb_eq, Nat.leb_gt.
  tauto.
Qed.

Lemma forEachOption_Some (opts : list string) (r : Result) :
  forEachOption opts = Some r <->
  exists o, firstBadOption opts o
    /\ (trim o = "" /\ r = fail EmptyOption
        \/ trim o <> "" /\ 200 < String.length o /\ r = fail OptionTooLong).
Proof.
  unfold firstBadOption. split.
  - induction opts as [|o rest IH]; simpl; [discriminate|].
    destruct (String.length (trim o) =? 0)%nat eqn:B.
    + intros [= <-]. rewrite length_zero_iff in B. apply String.eqb_eq in B.
      exists o. split; [|auto]. exists [], rest. simpl.
      rewrite goodText_false. auto.
    + rewrite length_zero_iff in B. apply String.eqb_neq in B.
      destruct (Nat.ltb_spec 200 (String.length o)) as [L|L].
      * intros [= <-]. exists o. split; [|auto]. exists [], rest. simpl.
        rewrite goodText_false. auto.
      * intros H. destruct (IH H) as (o' & (pre & post & -> & Hpre & Ho') & Hr).
        exists o'. split; [|exact Hr]. exists (o :: pre), post. simpl.
        rewrite Hpre, Ho'. repeat split.
        unfold goodText. apply String.eqb_neq in B. rewrite B.
        apply Nat.leb_le in L. rewrite L. reflexivity.
  - intros (o & (pre & post & -> & Hpre & _) & Hr).
    induction pre as [|p pre IH]; simpl in *.
    + destruct Hr as [[B ->] | (B & L & ->)].
      * rewrite B. reflexivity.
      * rewrite length_zero_iff. apply String.eqb_neq in B. rewrite B.
        apply Nat.ltb_lt in L. rewrite L. reflexivity.
    + apply andb_true_iff in Hpre as [Hp Hpre].
      apply goodText_spec in Hp as [-> ->]. auto.
Qed.

Ltac other_kind :=
  match goal with
  | H : Some (fail _) = Some (fail _) |- _ => discriminate H
  | H : fail _ = fail _ |- _ => discriminate H
  end.

Lemma payloadReturn_QuestionTooLong (fd : FormData) :
  payloadReturn fd = Some (fail QuestionTooLong) <->
  exists q, get fd "question" = Some q /\ trim q <> "" /\ 500 < String.length q.
Proof.
  unfold payloadReturn, questionOf.
  destruct (questionMissing (get fd "question")) eqn:M.
  - split; [intros H; other_kind|].
    intros (q & Hq & B & _).
    assert (questionMissing (get fd "question") = false)
      by (apply questionMissing_false; eauto).
    congruence.
  - apply questionMissing_false in M as (q & Hq & B). rewrite Hq. simpl.
    destruct (Nat.ltb_spec 500 (String.length q)) as [L|L].
    + split; [eauto | reflexivity].
    + split.
      * destruct (_ <? _)%nat; [intros H; other_kind|].
        destruct (_ <? _)%nat; [intros H; other_kind|].
        intros H. apply forEachOption_kinds in H as [H|H]; other_kind.
      * intros (q' & [= <-] & _ & L'). lia.
Qed.

Lemma payloadReturn_options (fd : FormData) (q : string) :
  get fd "question" = Some q -> goodText 500 q = true ->
  payloadReturn fd =
    if (length (optionsOf fd) <? 2)%nat then Some (fail TooFewOptions)
    else if (10 <? length (optionsOf fd))%nat then Some (fail TooManyOptions)
    else forEachOption (optionsOf fd).
Proof.
  intros Hq G. unfold payloadReturn, questionOf. rewrite Hq. simpl.
  rewrite (goodText_Boolean _ _ G).
  apply goodText_spec in G as [-> ->]. reflexivity.
Qed.

Lemma payloadReturn_option_kind (fd : FormData) (r : Result) :
  r = fail EmptyOption \/ r = fail OptionTooLong ->
  payloadReturn fd = Some r <->
  (exists q, get fd "question" = Some q /\ goodText 500 q = true)
  /\ 2 <= length (optionsOf fd) <= 10
  /\ forEachOption (optionsOf fd) = Some r.
Proof.
  intros K. split.
  - unfold payloadReturn, questionOf.
    destruct (questionMissing (get fd "question")) eqn:M;
      [intros [= <-]; destruct K; other_kind|].
    apply questionMissing_false in M as (q & Hq & B). rewrite Hq. simpl.
    destruct (Nat.ltb_spec 500 (String.length q));
      [intros [= <-]; destruct K; other_kind|].
    destruct (Nat.ltb_spec (length (optionsOf fd)) 2);
      [intros [= <-]; destruct K; other_kind|].
    destruct (Nat.ltb_spec 10 (length (optionsOf fd)));
      [intros [= <-]; destruct K; other_kind|].
    intros HF. split; [|split; [lia | exact HF]].
    exists q. split; [reflexivity|].
    unfold goodText. apply String.eqb_neq in B. rewrite B.
    apply Nat.leb_le. lia.
  - intros ((q & Hq & G) & [L1 L2] & H).
    rewrite (payloadReturn_options _ _ Hq G).
    destruct (Nat.ltb_spec (length (optionsOf fd)) 2); [lia|].
    destruct (Nat.ltb_spec 10 (length (optionsOf fd))); [lia|]. exact H.
Qed.

(** C6 (amended).  The length limits are judged on the text as received,
    not on the trimmed text: [createPoll] and [updatePoll] return
    [QuestionTooLong] exactly when the question is not blank and has more
    than 500 characters untrimmed, and [OptionTooLong] exactly when the
    question passes, between 2 and 10 options are left once empty strings
    are dropped, and the first option that is blank or has more than 200
    characters untrimmed is not blank. *)
Theorem length_limits_on_raw_text (pollId : string) (fd : FormData) :
  let longQuestion :=
    exists q, get fd "question" = Some q /\ trim q <> "" /\ 500 < String.length q in
  let longOption :=
    (exists q, get fd "question" = Some q /\ goodText 500 q = true)
    /\ 2 <= length (optionsOf fd) <= 10
    /\ exists o, firstBadOption (optionsOf fd) o
         /\ trim o <> "" /\ 200 < String.length o in
  (createPoll fd = Ret (fail QuestionTooLong) <-> longQuestion)
  /\ (updatePoll pollId fd = Ret (fail QuestionTooLong) <-> longQuestion)
  /\ (createPoll fd = Ret (fail OptionTooLong) <-> longOption)
  /\ (updatePoll pollId fd = Ret (fail OptionTooLong) <-> longOption).
Proof.
  intros longQuestion longOption.
  assert (Q : payloadReturn fd = Some (fail QuestionTooLong) <-> longQuestion)
    by apply payloadReturn_QuestionTooLong.
  assert (O : payloadReturn fd = Some (fail OptionTooLong) <-> longOption).
  { unfold longOption. rewrite payloadReturn_option_kind by auto.
    rewrite forEachOption_Some.
    split; intros (Hq & Hn & o & Ho & Hk); (split; [exact Hq|]);
      (split; [exact Hn|]); exists o; (split; [exact Ho|]).
    - destruct Hk as [[_ Hk] | (B & L & _)]; [other_kind | auto].
    - right. tauto. }
  split; [|split; [|split]].
  - rewrite createPoll_Ret. exact Q.
  - rewrite updatePoll_Ret, Q.
    split; [intros [HQ | (_ & _ & HQ)]; [exact HQ | other_kind] | auto].
  - rewrite createPoll_Ret. exact O.
  - rewrite updatePoll_Ret, O.
    split; [intros [HO | (_ & _ & HO)]; [exact HO | other_kind] | auto].
Qed.

(** C6, as stated, fails: a question (an option) of one letter followed by
    500 (200) spaces has trimmed length 1 and is rejected as too long. *)
Lemma trimmed_length_is_not_what_counts :
  String.length (trim ("Q" ++ spaces 500)) = 1
  /\ createPoll [("question", "Q" ++ spaces 500); ("options", "a"); ("options", "b")]
     = Ret (fail QuestionTooLong)
  /\ String.length (trim ("a" ++ spaces 200)) = 1
  /\ createPoll [("question", "Q"); ("options", "a" ++ spaces 200); ("options", "b")]
     = Ret (fail OptionTooLong)
  /\ updatePoll (genUuid 0)
       [("question", "Q"); ("options", "a" ++ spaces 200); ("options", "b")]
     = Ret (fail OptionTooLong).
Proof. repeat split; vm_compute; reflexivity. Qed.

(** ** Option counts and blank options *)

Lemma forEachOption_blank (opts : list string) :
  forallb (fun o => (String.length o <=? 200)%nat) opts = true ->
  existsb (fun o => trim o =? "") opts = true ->
  forEachOption opts = Some (fail EmptyOption).
Proof.
  induction opts as [|o rest IH]; simpl; [discriminate|].
  rewrite andb_true_iff, orb_true_iff, length_zero_iff.
  intros [L Hrest] E.
  destruct (trim o =? ""); [reflexivity|].
  apply Nat.leb_le in L. destruct (Nat.ltb_spec 200 (String.length o)); [lia|].
  destruct E as [E|E]; [discriminate | auto].
Qed.

Lemma get_skips (before after : FormData) (n v name : string) :
  (n =? name) = false ->
  get (before ++ (n, v) :: after)%list name = get (before ++ after)%list name.
Proof.
  intros N. induction before as [|[n' v'] before IH]; simpl.
  - rewrite N. reflexivity.
  - rewrite IH. reflexivity.
Qed.

Lemma optionsOf_skips_empty (before after : FormData) :
  optionsOf (before ++ ("options", "") :: after)%list
  = optionsOf (before ++ after)%list.
Proof.
  unfold optionsOf, getAll. rewrite !filter_app, !map_app, !filter_app.
  reflexivity.
Qed.

Lemma createPoll_same_fields (fd fd' : FormData) :
  get fd "question" = get fd' "question" -> optionsOf fd = optionsOf fd' ->
  createPoll fd = createPoll fd' /\
  forall pollId, updatePoll pollId fd = updatePoll pollId fd'.
Proof.
  intros Q O. unfold optionsOf in O. unfold createPoll, updatePoll.
  rewrite Q, O. split; reflexivity.
Qed.

(** C7 (amended).  Options that are the empty string are dropped before
    anything is counted or checked; options of white space only are kept.
    With a question that passes: fewer than 2 options left after the drop
    give [TooFewOptions]; between 2 and 10 options left, none longer than
    200, one of them blank, give [EmptyOption]; and a call with an
    empty-string option is the call without it. *)
Theorem option_count_and_blank_options
  (pollId : string) (fd : FormData) (q : string) :
  get fd "question" = Some q -> goodText 500 q = true ->
  (length (optionsOf fd) < 2 ->
     createPoll fd = Ret (fail TooFewOptions)
     /\ updatePoll pollId fd = Ret (fail TooFewOptions))
  /\ (2 <= length (optionsOf fd) <= 10 ->
      forallb (fun o => (String.length o <=? 200)%nat) (optionsOf fd) = true ->
      existsb (fun o => trim o =? "") (optionsOf fd) = true ->
      createPoll fd = Ret (fail EmptyOption)
      /\ updatePoll pollId fd = Ret (fail EmptyOption))
  /\ (forall before after,
      fd = (before ++ ("options", "") :: after)%list ->
      optionsOf fd = optionsOf (before ++ after)%list
      /\ createPoll fd = createPoll (before ++ after)%list
      /\ updatePoll pollId fd = updatePoll pollId (before ++ after)%list).
Proof.
  intros Hq G. pose proof (payloadReturn_options _ _ Hq G) as P.
  split; [|split].
  - intros L. apply Nat.ltb_lt in L. rewrite L in P.
    split; [apply createPoll_Ret | apply updatePoll_Ret; left]; exact P.
  - intros [L1 L2] L E.
    destruct (Nat.ltb_spec (length (optionsOf fd)) 2); [lia|].
    destruct (Nat.ltb_spec 10 (length (optionsOf fd))); [lia|].
    rewrite (forEachOption_blank _ L E) in P.
    split; [apply createPoll_Ret | apply updatePoll_Ret; left]; exact P.
  - intros before after ->.
    pose proof (optionsOf_skips_empty before after) as O.
    split; [exact O|].
    destruct (createPoll_same_fields
                (before ++ ("options", "") :: after)%list
                (before ++ after)%list) as [C U];
      [apply get_skips; reflexivity | exact O | auto].
Qed.

Lemma option_count_and_blank_options_witness :
  get [("question", "Q"); ("options", "a"); ("options", "")] "question" = Some "Q"
  /\ goodText 500 "Q" = true
  /\ createPoll [("question", "Q"); ("options", "a"); ("options", "")]
     = Ret (fail TooFewOptions).
Proof.
  split; [reflexivity|]. split; [reflexivity|].
  refine (proj1 (proj1 (option_count_and_blank_options (genUuid 0)
            [("question", "Q"); ("options", "a"); ("options", "")] "Q"
            eq_refl eq_refl) _)).
  simpl. lia.
Defined.

(** C7, as stated, fails: with one real option and one of white space only
    the answer is [EmptyOption], not [TooFewOptions]; and with two real
    options and an empty string the payload passes, no [EmptyOption]. *)
Lemma blank_is_counted_and_empty_is_dropped :
  createPoll [("question", "Q"); ("options", "a"); ("options", "  ")]
    = Ret (fail EmptyOption)
  /\ EmptyOption <> TooFewOptions
  /\ fst (run alice (createPoll [("question", "Q"); ("options", "a");
                                 ("options", "b"); ("options", "")]) emptyStore)
     = ok.
Proof. split; [reflexivity|]. split; [discriminate | reflexivity]. Qed.

(** ** The store, one call at a time *)

Lemma existsb_filter_nil {A : Type} (f : A -> bool) (l : list A) :
  existsb f l = false -> filter f l = [].
Proof.
  induction l as [|x l IH]; simpl; [reflexivity|].
  destruct (f x); simpl; [discriminate | exact IH].
Qed.

Lemma existsb_and_filter {A : Type} (f g : A -> bool) (l : list A) :
  existsb (fun x => f x && g x) l = existsb g (filter f l).
Proof.
  induction l as [|x l IH]; simpl; [reflexivity|].
  destruct (f x); simpl; rewrite IH; reflexivity.
Qed.




Lemma owned_iff (i u : string) (l : list PollRow) (target : PollRow) :
  filter (withId i) l = [target] ->
  existsb (ownedBy i u) l = (user_id target =? u).
Proof.
  intros H. unfold ownedBy.
  rewrite (existsb_and_filter (withId i) (fun p => user_id p =? u)).
  fold (withId i). rewrite H. simpl. apply orb_false_r.
Qed.

Lemma validPayload_question (fd : FormData) :
  validPayload fd = true ->
  questionCheck (trim (questionOf fd)) = true
  /\ optionsCheck (map trim (optionsOf fd)) = true.
Proof.
  unfold validPayload, questionCheck, optionsCheck, questionOf.
  rewrite !andb_true_iff, length_map.
  intros [[[Q L1] L2] _]. split; [|auto].
  destruct (get fd "question") as [q|]; [|discriminate]. simpl.
  apply goodText_spec in Q as [_ Q]. apply Nat.ltb_ge in Q.
  apply Nat.leb_le. pose proof (trim_length q). lia.
Qed.

Lemma hasNul_trimStart (s : string) : hasNul (trimStart s) = hasNul s.
Proof.
  induction s as [|c r IH]; [reflexivity|]. cbn [trimStart].
  destruct (isWhiteSpace c) eqn:W; [|reflexivity].
  rewrite IH. cbn [hasNul].
  replace (N_of_ascii c =? 0)%N with false; [reflexivity|].
  symmetry. apply N.eqb_neq. intros Z. unfold isWhiteSpace in W.
  rewrite Z in W. discriminate W.
Qed.

Lemma hasNul_trimEnd (s : string) : hasNul (trimEnd s) = hasNul s.
Proof.
  induction s as [|c r IH]; [reflexivity|].
  change (trimEnd (String c r))
    with (match trimEnd r with
          | EmptyString =>
              if isWhiteSpace c then EmptyString else String c EmptyString
          | r' => String c r'
          end).
  cbn [hasNul]. rewrite <- IH.
  destruct (trimEnd r) as [|c' r']; [|reflexivity].
  destruct (isWhiteSpace c) eqn:W; [|reflexivity].
  cbn [hasNul]. rewrite orb_false_r. symmetry. apply N.eqb_neq.
  intros Z. unfold isWhiteSpace in W. rewrite Z in W. discriminate W.
Qed.

Lemma hasNul_trim (s : string) : hasNul (trim s) = hasNul s.
Proof. unfold trim. rewrite hasNul_trimEnd. apply hasNul_trimStart. Qed.

Lemma textCheck_trim (q : string) (opts : list string) :
  textCheck (trim q) (map trim opts) = textCheck q opts.
Proof.
  unfold textCheck. rewrite hasNul_trim. f_equal.
  induction opts as [|o rest IH]; [reflexivity|].
  cbn [map forallb]. rewrite hasNul_trim, IH. reflexivity.
Qed.

Lemma pollsInsert_fresh (u q : string) (opts : list string) (s : Store) :
  textCheck q opts = true ->
  questionCheck q = true -> optionsCheck opts = true ->
  existsb (withId (genUuid (nextUuid s))) (polls s) = false ->
  pollsInsert u q opts s
  = (None, mkStore (polls s ++ [mkPoll (genUuid (nextUuid s)) u q opts])
             (votes s) (S (nextUuid s))).
Proof.
  intros T Q O F. unfold pollsInsert. rewrite T, Q, O, F. reflexivity.
Qed.

Lemma createPoll_run (u : User) (fd : FormData) (s : Store) :
  validPayload fd = true -> storable fd = true ->
  existsb (withId (genUuid (nextUuid s))) (polls s) = false ->
  run (signedIn u) (createPoll fd) s
  = (ok, mkStore (polls s ++ [mkPoll (genUuid (nextUuid s)) (uid u)
                                (trim (questionOf fd)) (map trim (optionsOf fd))])
           (votes s) (S (nextUuid s))).
Proof.
  intros V T F. destruct (validPayload_question _ V) as [Q O].
  unfold storable in T. rewrite <- textCheck_trim in T.
  rewrite (createPoll_valid _ V). simpl.
  rewrite (pollsInsert_fresh _ _ _ _ T Q O F). reflexivity.
Qed.

Lemma createPoll_refused (u : User) (fd : FormData) (s : Store) :
  validPayload fd = true -> storable fd = false ->
  run (signedIn u) (createPoll fd) s = (fail refusedText, s).
Proof.
  intros V T. unfold storable in T. rewrite <- textCheck_trim in T.
  rewrite (createPoll_valid _ V). simpl. unfold pollsInsert.
  rewrite T. reflexivity.
Qed.


(** ** Create, then read *)




(** ** Reading needs no principal *)

(** C10.  The answer of [getPollById] is decided by the identifier and by
    what the store holds under it: against the store, any two callers get
    the same answer and leave the same store; and whatever the identity
    provider says, the answer is the same whenever the store's reply to the
    lookup is the same. *)
Theorem getPollById_ignores_principal (pollId : string) :
  (forall (w1 w2 : AuthResponse) (s : Store),
     run w1 (getPollById pollId) s = run w2 (getPollById pollId) s)
  /\ (forall o1 o2 : forall A : Type, Req A -> A,
        o1 _ (PollsSelect pollId) = o2 _ (PollsSelect pollId) ->
        runWith o1 (getPollById pollId) = runWith o2 (getPollById pollId)).
Proof.
  split.
  - intros w1 w2 s. simpl.
    destruct (single (filter (withId pollId) (polls s))); reflexivity.
  - intros o1 o2 H. simpl. rewrite H.
    destruct (o2 _ (PollsSelect pollId)); reflexivity.
Qed.

(** ** The bounds check of [submitVote] *)

Lemma guard_inRange (n : number) (k : nat) :
  n <> NaN -> lt n (ofNat 0) || ge n (ofNat k) = negb (inRange n k).
Proof.
  intros N. unfold inRange. destruct n as [| | |q]; try reflexivity.
  - contradiction N; reflexivity.
  - unfold lt, ge, ofNat, Qlt_bool.
    destruct (Qle_bool _ q), (Qle_bool _ q); reflexivity.
Qed.

Lemma inRange_guard (n : number) (k : nat) :
  inRange n k = true -> lt n (ofNat 0) || ge n (ofNat k) = false.
Proof.
  intros H. rewrite guard_inRange; [rewrite H; reflexivity|].
  intros ->. discriminate H.
Qed.

Lemma submitVote_run (w : AuthResponse) (u : User) (pollId : string)
  (n : number) (s : Store) (p : PollRow) :
  user w = Some u -> filter (withId pollId) (polls s) = [p] ->
  run w (submitVote pollId n) s =
  if lt n (ofNat 0) || ge n (ofNat (length (options p)))
  then (fail InvalidOptionIndex, s)
  else run w (voteExisting pollId n u) s.
Proof.
  intros U P. rewrite submitVote_points. simpl. rewrite U. simpl. rewrite P. simpl.
  destruct (lt n (ofNat 0) || ge n (ofNat (length (options p)))); reflexivity.
Qed.

(** X6.  For every number other than [NaN], the bounds check does what it is
    meant to: for a signed-in caller and an existing poll, an index outside
    [[0, number of options)] gives [InvalidOptionIndex] and the store is
    left as it was. *)
Lemma submitVote_out_of_range (w : AuthResponse) (u : User) (pollId : string)
  (n : number) (s : Store) (p : PollRow) :
  user w = Some u -> filter (withId pollId) (polls s) = [p] ->
  n <> NaN -> inRange n (length (options p)) = false ->
  run w (submitVote pollId n) s = (fail InvalidOptionIndex, s).
Proof.
  intros U P N R. rewrite (submitVote_run _ _ _ _ _ _ U P).
  rewrite (guard_inRange _ _ N), R. reflexivity.
Qed.

Lemma submitVote_out_of_range_witness :
  user bob = Some (mkUser "22222222-2222-4222-8222-222222222222")
  /\ inRange (Finite (7 # 2)) 3 = false /\ inRange (ofNat 3) 3 = false
  /\ inRange NegInfinity 3 = false
  /\ run bob (submitVote (genUuid 0) (Finite (7 # 2))) oneBallot
     = (fail InvalidOptionIndex, oneBallot)
  /\ run bob (submitVote (genUuid 0) (ofNat 3)) oneBallot
     = (fail InvalidOptionIndex, oneBallot)
  /\ run bob (submitVote (genUuid 0) NegInfinity) oneBallot
     = (fail InvalidOptionIndex, oneBallot).
Proof.
  pose (T := fun n => submitVote_out_of_range bob
               (mkUser "22222222-2222-4222-8222-222222222222") (genUuid 0) n
               oneBallot
               (mkPoll (genUuid 0) "11111111-1111-4111-8111-111111111111"
                  "Favourite colour?" ["red"; "green"; "blue"])
               eq_refl eq_refl).
  do 4 (split; [reflexivity|]).
  split; [|split].
  - exact (T (Finite (7 # 2)) ltac:(discriminate) eq_refl).
  - exact (T (ofNat 3) ltac:(discriminate) eq_refl).
  - exact (T NegInfinity ltac:(discriminate) eq_refl).
Defined.

Lemma voteExisting_kinds (w : AuthResponse) (u : User) (pollId : string)
  (n : number) (s : Store) :
  fst (run w (voteExisting pollId n u) s) = fail AlreadyVoted
  \/ fst (run w (voteExisting pollId n u) s)
     = fst (run w (voteInsert pollId n u) s).
Proof.
  simpl. destruct (single (filter (votedBy pollId (uid u)) (votes s))); auto.
Qed.

Lemma voteInsert_NaN (w : AuthResponse) (u : User) (pollId : string) (s : Store) :
  run w (voteInsert pollId NaN u) s
  = (fail "null value in column option_index of relation votes violates not-null constraint", s).
Proof. reflexivity. Qed.

(** C9.  [NaN] is outside every range, yet both comparisons of the bounds
    check are false on it: for a signed-in caller and an existing poll,
    [submitVote] with [NaN] goes on to the existence query and never
    answers [InvalidOptionIndex]. *)
Theorem submitVote_NaN_is_not_rejected (w : AuthResponse) (u : User)
  (pollId : string) (s : Store) (p : PollRow) :
  user w = Some u -> filter (withId pollId) (polls s) = [p] ->
  inRange NaN (length (options p)) = false
  /\ run w (submitVote pollId NaN) s = run w (voteExisting pollId NaN u) s
  /\ fst (run w (submitVote pollId NaN) s) <> fail InvalidOptionIndex.
Proof.
  intros U P. split; [reflexivity|].
  assert (E : run w (submitVote pollId NaN) s = run w (voteExisting pollId NaN u) s)
    by (rewrite (submitVote_run _ _ _ _ _ _ U P); reflexivity).
  split; [exact E|]. rewrite E.
  destruct (voteExisting_kinds w u pollId NaN s) as [-> | ->].
  - discriminate.
  - rewrite voteInsert_NaN. discriminate.
Qed.

Lemma submitVote_NaN_is_not_rejected_witness :
  user bob = Some (mkUser "22222222-2222-4222-8222-222222222222")
  /\ filter (withId (genUuid 0)) (polls oneBallot)
     = [mkPoll (genUuid 0) "11111111-1111-4111-8111-111111111111"
          "Favourite colour?" ["red"; "green"; "blue"]]
  /\ fst (run bob (submitVote (genUuid 0) NaN) oneBallot) <> fail InvalidOptionIndex.
Proof.
  split; [reflexivity|]. split; [reflexivity|].
  exact (proj2 (proj2 (submitVote_NaN_is_not_rejected bob
           (mkUser "22222222-2222-4222-8222-222222222222") (genUuid 0) oneBallot
           (mkPoll (genUuid 0) "11111111-1111-4111-8111-111111111111"
              "Favourite colour?" ["red"; "green"; "blue"])
           eq_refl eq_refl))).
Defined.

(** ** Writes by the owner and by someone else *)

Lemma updatePoll_run (u : User) (pollId : string) (fd : FormData) (s : Store) :
  validPayload fd = true -> storable fd = true -> test uuidRegex pollId = true ->
  run (signedIn u) (updatePoll pollId fd) s =
  if existsb (ownedBy pollId (uid u)) (polls s)
  then (ok, mkStore (map (fun p => if ownedBy pollId (uid u) p
                                   then mkPoll (id p) (user_id p)
                                          (trim (questionOf fd))
                                          (map trim (optionsOf fd))
                                   else p) (polls s))
              (votes s) (nextUuid s))
  else (ok, s).
Proof.
  intros V T U. destruct (validPayload_question _ V) as [Q O].
  unfold storable in T. rewrite <- textCheck_trim in T.
  rewrite (updatePoll_valid _ _ V U). simpl. unfold pollsUpdate.
  rewrite T, Q, O. simpl.
  destruct (existsb (ownedBy pollId (uid u)) (polls s)); reflexivity.
Qed.

Lemma updatePoll_refused (u : User) (pollId : string) (fd : FormData)
  (s : Store) :
  validPayload fd = true -> storable fd = false ->
  test uuidRegex pollId = true ->
  existsb (ownedBy pollId (uid u)) (polls s) = true ->
  run (signedIn u) (updatePoll pollId fd) s = (fail refusedText, s).
Proof.
  intros V T U E. unfold storable in T. rewrite <- textCheck_trim in T.
  rewrite (updatePoll_valid _ _ V U). simpl. unfold pollsUpdate.
  rewrite E, T. reflexivity.
Qed.

Lemma deletePoll_run (u : User) (pollId : string) (s : Store) :
  run (signedIn u) (deletePoll pollId) s =
  if existsb (ownedBy pollId (uid u)) (polls s)
  then (ok, mkStore (filter (fun p => negb (ownedBy pollId (uid u) p)) (polls s))
              (filter (fun v => negb (poll_id v =? pollId)) (votes s))
              (nextUuid s))
  else (ok, s).
Proof.
  simpl. unfold pollsDelete.
  destruct (existsb (ownedBy pollId (uid u)) (polls s)); reflexivity.
Qed.




(** ** Voting twice *)

Lemma single_one {A : Type} (l : list A) (x : A) : single l = Data x <-> l = [x].
Proof.
  destruct l as [|y [|z l]]; simpl; split; try discriminate.
  - intros [= ->]. reflexivity.
  - intros [= ->]. reflexivity.
Qed.




(** ** Several calls for one pair *)






Lemma existsb_filter_cons {A : Type} (f : A -> bool) (l : list A) :
  existsb f l = true -> 1 <= length (filter f l).
Proof.
  induction l as [|a l IH]; simpl; [discriminate|].
  destruct (f a); simpl; [lia | exact IH].
Qed.

Lemma filter_cons_existsb {A : Type} (f : A -> bool) (l : list A) (x : A)
  (r : list A) :
  filter f l = x :: r -> existsb f l = true.
Proof.
  intros H. destruct (existsb f l) eqn:E; [reflexivity|].
  rewrite (existsb_filter_nil _ _ E) in H. discriminate.
Qed.





Lemma Qred_inject_Z (z : Z) : Qred (inject_Z z) = inject_Z z.
Proof. apply Qred_identity. simpl. apply Z.gcd_1_r. Qed.

Section OnePair.

Variables (w : AuthResponse) (u : User) (pollId : string).
Hypothesis signed : user w = Some u.

(** The votes recorded for the pair. *)
Definition rows (s : Store) : nat :=
  length (filter (votedBy pollId (uid u)) (votes s)).









Section Valid.

Variables (p : PollRow) (start : Store).
Hypothesis found : filter (withId pollId) (polls start) = [p].
Hypothesis checked : optionsCheck (options p) = true.





End Valid.

End OnePair.








(** * More of the actions *)

(** ** What a call can do to the store *)

Lemma createPoll_effect (w : AuthResponse) (fd : FormData) (s : Store) :
  snd (run w (createPoll fd) s) = s
  \/ snd (run w (createPoll fd) s) = mkStore (polls s) (votes s) (S (nextUuid s))
  \/ exists u, user w = Some u /\ userError w = None /\ validPayload fd = true
       /\ fst (run w (createPoll fd) s) = ok
       /\ snd (run w (createPoll fd) s)
          = mkStore (polls s ++ [mkPoll (genUuid (nextUuid s)) (uid u)
                                   (trim (questionOf fd)) (map trim (optionsOf fd))])
              (votes s) (S (nextUuid s)).
Proof.
  rewrite createPoll_payload.
  destruct (payloadReturn fd) as [r|] eqn:P; [left; reflexivity|].
  apply payloadReturn_None in P. unfold createPollRest. simpl.
  destruct (userError w) as [e|] eqn:E; [left; reflexivity|].
  destruct (user w) as [u|] eqn:U; [|left; reflexivity].
  simpl. unfold pollsInsert, rejected.
  destruct (textCheck _ _); [|left; reflexivity].
  destruct (questionCheck _); [|left; reflexivity].
  destruct (optionsCheck _); [|left; reflexivity]. cbn [negb].
  destruct (existsb _ _); [right; left; reflexivity|].
  right. right. exists u. auto.
Qed.

Lemma updatePoll_effect (w : AuthResponse) (pollId : string) (fd : FormData)
  (s : Store) :
  snd (run w (updatePoll pollId fd) s) = s
  \/ exists u, user w = Some u /\ userError w = None /\ validPayload fd = true
       /\ test uuidRegex pollId = true
       /\ snd (run w (updatePoll pollId fd) s)
          = mkStore (map (fun p => if ownedBy pollId (uid u) p
                                   then mkPoll (id p) (user_id p)
                                          (trim (questionOf fd))
                                          (map trim (optionsOf fd))
                                   else p) (polls s))
              (votes s) (nextUuid s).
Proof.
  rewrite updatePoll_payload.
  destruct (payloadReturn fd) as [r|] eqn:P; [left; reflexivity|].
  apply payloadReturn_None in P.
  destruct (test uuidRegex pollId) eqn:T; [|left; reflexivity].
  unfold updatePollRest. simpl.
  destruct (userError w) as [e|] eqn:E; [left; reflexivity|].
  destruct (user w) as [u|] eqn:U; [|left; reflexivity].
  simpl. unfold pollsUpdate, rejected.
  destruct (existsb _ _); [|left; reflexivity].
  destruct (textCheck _ _); [|left; reflexivity].
  destruct (questionCheck _); [|left; reflexivity].
  destruct (optionsCheck _); [|left; reflexivity]. cbn [negb].
  right. exists u. auto.
Qed.

Lemma deletePoll_effect (w : AuthResponse) (pollId : string) (s : Store) :
  snd (run w (deletePoll pollId) s) = s
  \/ exists u, user w = Some u /\ userError w = None
       /\ existsb (ownedBy pollId (uid u)) (polls s) = true
       /\ snd (run w (deletePoll pollId) s)
          = mkStore (filter (fun p => negb (ownedBy pollId (uid u) p)) (polls s))
              (filter (fun v => negb (poll_id v =? pollId)) (votes s))
              (nextUuid s).
Proof.
  simpl.
  destruct (userError w) as [e|] eqn:E; [left; reflexivity|].
  destruct (user w) as [u|] eqn:U; [|left; reflexivity].
  simpl. unfold pollsDelete.
  destruct (existsb _ _) eqn:O; [|left; reflexivity].
  right. exists u. auto.
Qed.

Lemma votesInsert_accepts (p u : string) (n : number) (s : Store) (s' : Store) :
  votesInsert p u n s = (None, s') <->
  exists q z, n = Finite q /\ Qred q = inject_Z z
    /\ (0 <= z <= 2147483647)%Z
    /\ existsb (votedBy p u) (votes s) = false
    /\ existsb (withId p) (polls s) = true
    /\ s' = mkStore (polls s) (votes s ++ [mkVote p u z]) (nextUuid s).
Proof.
  unfold votesInsert, rejected. split.
  - destruct n as [| | |q]; try discriminate.
    destruct (Qred q) as [num den] eqn:R. cbn [Qnum Qden].
    destruct (Z.eqb_spec (Z.pos den) 1) as [D|D]; [|discriminate]. cbn [negb].
    destruct (Z.leb_spec (-2147483648) num); [|discriminate].
    destruct (Z.leb_spec num 2147483647); [|discriminate]. cbn [andb negb].
    destruct (Z.ltb_spec num 0); [discriminate|].
    destruct (existsb (votedBy p u) (votes s)); [discriminate|].
    destruct (existsb (withId p) (polls s)); [|discriminate]. cbn [negb].
    intros [= <-]. exists q, num. repeat split; auto.
    rewrite R. unfold inject_Z. f_equal. injection D as ->. reflexivity.
  - intros (q & z & -> & R & [Z0 Z1] & V & F & ->). rewrite R. cbn [inject_Z Qnum Qden].
    rewrite V, F. cbn [negb Z.eqb Pos.eqb].
    destruct (Z.leb_spec (-2147483648) z); [|lia].
    destruct (Z.leb_spec z 2147483647); [|lia]. cbn [andb negb].
    destruct (Z.ltb_spec z 0); [lia|]. reflexivity.
Qed.

Lemma submitVote_effect (w : AuthResponse) (pollId : string) (n : number)
  (s : Store) :
  error (fst (run w (submitVote pollId n) s)) <> None
    /\ snd (run w (submitVote pollId n) s) = s
  \/ exists u p q z, user w = Some u
       /\ filter (withId pollId) (polls s) = [p]
       /\ lt n (ofNat 0) || ge n (ofNat (length (options p))) = false
       /\ n = Finite q /\ Qred q = inject_Z z /\ (0 <= z <= 2147483647)%Z
       /\ filter (votedBy pollId (uid u)) (votes s) = []
       /\ run w (submitVote pollId n) s
          = (ok, mkStore (polls s) (votes s ++ [mkVote pollId (uid u) z])
                   (nextUuid s)).
Proof.
  rewrite submitVote_points. simpl.
  destruct (user w) as [u|] eqn:U; [|left; split; [discriminate | reflexivity]].
  simpl.
  destruct (single (map options (filter (withId pollId) (polls s)))) as [opts|e] eqn:P;
    [|left; split; [discriminate | reflexivity]].
  apply single_one in P.
  destruct (filter (withId pollId) (polls s)) as [|p [|p' l]] eqn:F; try discriminate.
  injection P as <-.
  destruct (lt n (ofNat 0) || ge n (ofNat (length (options p)))) eqn:G;
    [left; split; [discriminate | reflexivity]|].
  simpl.
  destruct (single (filter (votedBy pollId (uid u)) (votes s))) as [v|e] eqn:V;
    [left; split; [discriminate | reflexivity]|].
  simpl.
  destruct (votesInsert pollId (uid u) n s) as [[e'|] s'] eqn:I.
  - left. split; [discriminate|].
    unfold votesInsert, rejected in I.
    destruct n; try (injection I as _ <-; reflexivity).
    repeat match type of I with
           | (if ?b then _ else _) = _ => destruct b
           end; try discriminate; injection I as _ <-; reflexivity.
  - right. apply votesInsert_accepts in I as (q & z & -> & R & Z & E & _ & ->).
    exists u, p, q, z. repeat split; auto; try lia.
    apply existsb_filter_nil. exact E.
Qed.

(** ** Who can change what *)

(** X1.  Without a principal no action touches the store, whatever the
    arguments and whatever else the identity provider reports. *)
Theorem anonymous_calls_never_write (w : AuthResponse) (s : Store) :
  user w = None ->
  (forall fd, snd (run w (createPoll fd) s) = s)
  /\ (forall pollId fd, snd (run w (updatePoll pollId fd) s) = s)
  /\ (forall pollId, snd (run w (deletePoll pollId) s) = s)
  /\ (forall pollId n, snd (run w (submitVote pollId n) s) = s).
Proof.
  intros U. split; [|split; [|split]].
  - intros fd.
    destruct (createPoll_effect w fd s) as [E | [E | (u & U' & _)]];
      [exact E | | congruence].
    revert E. rewrite createPoll_payload.
    destruct (payloadReturn fd); [auto|]. simpl.
    destruct (userError w); [auto|]. rewrite U. auto.
  - intros pollId fd.
    destruct (updatePoll_effect w pollId fd s) as [E | (u & U' & _)];
      [exact E | congruence].
  - intros pollId.
    destruct (deletePoll_effect w pollId s) as [E | (u & U' & _)];
      [exact E | congruence].
  - intros pollId n.
    destruct (submitVote_effect w pollId n s)
      as [[_ E] | (u & p & q & z & U' & _)]; [exact E | congruence].
Qed.

Lemma anonymous_calls_never_write_witness :
  user (mkAuth None (Some (mkError "Auth session missing!"))) = None
  /\ snd (run (mkAuth None (Some (mkError "Auth session missing!")))
            (deletePoll (genUuid 0)) bobVoted) = bobVoted
  /\ snd (run nobody (submitVote (genUuid 0) (ofNat 0)) oneBallot) = oneBallot.
Proof.
  split; [reflexivity|]. split.
  - exact (proj1 (proj2 (proj2 (anonymous_calls_never_write
             (mkAuth None (Some (mkError "Auth session missing!"))) bobVoted
             eq_refl))) (genUuid 0)).
  - exact (proj2 (proj2 (proj2 (anonymous_calls_never_write nobody oneBallot
             eq_refl))) (genUuid 0) (ofNat 0)).
Defined.

Lemma filter_others_map (mine : PollRow -> bool) (g : PollRow -> PollRow)
  (l : list PollRow) :
  (forall p, mine p = false -> g p = p) ->
  (forall p, mine (g p) = mine p) ->
  filter (fun p => negb (mine p)) (map g l) = filter (fun p => negb (mine p)) l.
Proof.
  intros G M. induction l as [|p l IH]; simpl; [reflexivity|].
  rewrite M. destruct (mine p) eqn:E; simpl; [exact IH|].
  rewrite (G _ E), IH. reflexivity.
Qed.

Lemma filter_others_filter (mine keep : PollRow -> bool) (l : list PollRow) :
  (forall p, mine p = false -> keep p = true) ->
  filter (fun p => negb (mine p)) (filter keep l)
  = filter (fun p => negb (mine p)) l.
Proof.
  intros K. induction l as [|p l IH]; simpl; [reflexivity|].
  destruct (mine p) eqn:E; simpl.
  - destruct (keep p); simpl; rewrite ?E; exact IH.
  - rewrite (K _ E). simpl. rewrite E, IH. reflexivity.
Qed.

(** X2.  The polls of everyone else come out of every call exactly as they
    went in: same rows, same order, whatever the action, its arguments and
    its outcome. *)
Theorem polls_of_others_untouched (w : AuthResponse) (u : User) (s : Store) :
  user w = Some u ->
  let others (x : Store) :=
    filter (fun p => negb (user_id p =? uid u)) (polls x) in
  (forall fd, others (snd (run w (createPoll fd) s)) = others s)
  /\ (forall pollId fd, others (snd (run w (updatePoll pollId fd) s)) = others s)
  /\ (forall pollId, others (snd (run w (deletePoll pollId) s)) = others s)
  /\ (forall pollId n, others (snd (run w (submitVote pollId n) s)) = others s).
Proof.
  intros U others. unfold others. split; [|split; [|split]].
  - intros fd.
    destruct (createPoll_effect w fd s) as [-> | [-> | (u' & U' & _ & _ & _ & ->)]];
      try reflexivity.
    assert (u' = u) by congruence. subst u'. cbn [polls].
    rewrite filter_app. cbn [filter user_id]. rewrite String.eqb_refl.
    cbn [negb]. apply app_nil_r.
  - intros pollId fd.
    destruct (updatePoll_effect w pollId fd s) as [-> | (u' & U' & _ & _ & _ & ->)];
      [reflexivity|].
    assert (u' = u) by congruence. subst u'. cbn [polls].
    apply (filter_others_map (fun p => user_id p =? uid u)).
    + intros p M. unfold ownedBy. rewrite M, andb_false_r. reflexivity.
    + intros p. destruct (ownedBy pollId (uid u) p); reflexivity.
  - intros pollId.
    destruct (deletePoll_effect w pollId s) as [-> | (u' & U' & _ & _ & ->)];
      [reflexivity|].
    assert (u' = u) by congruence. subst u'. cbn [polls].
    apply (filter_others_filter (fun p => user_id p =? uid u)).
    intros p M. unfold ownedBy. rewrite M, andb_false_r. reflexivity.
  - intros pollId n.
    destruct (submitVote_effect w pollId n s)
      as [[_ ->] | (u' & p & q & z & _ & _ & _ & _ & _ & _ & _ & ->)]; reflexivity.
Qed.

Lemma polls_of_others_untouched_witness :
  user bob = Some (mkUser "22222222-2222-4222-8222-222222222222")
  /\ filter (fun p => negb (user_id p =? "22222222-2222-4222-8222-222222222222"))
       (polls (snd (run bob (updatePoll (genUuid 0) colours) oneBallot)))
     = polls oneBallot.
Proof.
  split; [reflexivity|].
  exact (proj1 (proj2 (polls_of_others_untouched bob
           (mkUser "22222222-2222-4222-8222-222222222222") oneBallot eq_refl))
           (genUuid 0) colours).
Defined.

(** X3.  Recorded votes are never edited.  [createPoll] and [updatePoll] leave
    them alone; for an identifier in the canonical spelling of a uuid,
    [submitVote] at most appends one vote, in the caller's name and on the
    poll asked for, and [deletePoll] at most removes the votes of the poll
    asked for, and only when the caller owns a poll with that
    identifier. *)
Theorem votes_are_only_added_or_cascaded (w : AuthResponse) (s : Store) :
  (forall fd, votes (snd (run w (createPoll fd) s)) = votes s)
  /\ (forall pollId fd, votes (snd (run w (updatePoll pollId fd) s)) = votes s)
  /\ (forall pollId n,
        canonical pollId = true ->
        votes (snd (run w (submitVote pollId n) s)) = votes s
        \/ exists u z, user w = Some u
             /\ votes (snd (run w (submitVote pollId n) s))
                = (votes s ++ [mkVote pollId (uid u) z])%list)
  /\ (forall pollId,
        canonical pollId = true ->
        votes (snd (run w (deletePoll pollId) s)) = votes s
        \/ exists u, user w = Some u
             /\ existsb (ownedBy pollId (uid u)) (polls s) = true
             /\ votes (snd (run w (deletePoll pollId) s))
                = filter (fun v => negb (poll_id v =? pollId)) (votes s)).
Proof.
  split; [|split; [|split]].
  - intros fd.
    destruct (createPoll_effect w fd s) as [-> | [-> | (u & _ & _ & _ & _ & ->)]];
      reflexivity.
  - intros pollId fd.
    destruct (updatePoll_effect w pollId fd s) as [-> | (u & _ & _ & _ & _ & ->)];
      reflexivity.
  - intros pollId n _.
    destruct (submitVote_effect w pollId n s)
      as [[_ ->] | (u & p & q & z & U & _ & _ & _ & _ & _ & _ & ->)]; [auto|].
    right. exists u, z. auto.
  - intros pollId _.
    destruct (deletePoll_effect w pollId s) as [-> | (u & U & _ & O & ->)]; [auto|].
    right. exists u. auto.
Qed.

Lemma votes_are_only_added_or_cascaded_witness :
  canonical (genUuid 0) = true
  /\ (votes (snd (run alice (deletePoll (genUuid 0)) bobVoted)) = votes bobVoted
      \/ exists u, user alice = Some u
           /\ existsb (ownedBy (genUuid 0) (uid u)) (polls bobVoted) = true
           /\ votes (snd (run alice (deletePoll (genUuid 0)) bobVoted))
              = filter (fun v => negb (poll_id v =? genUuid 0)) (votes bobVoted)).
Proof.
  split; [reflexivity|].
  exact (proj2 (proj2 (proj2 (votes_are_only_added_or_cascaded alice bobVoted)))
           (genUuid 0) eq_refl).
Defined.

(** ** What is stored is sanitized *)

Lemma trimStart_noLeadingSpace (s : string) : noLeadingSpace (trimStart s).
Proof.
  induction s as [|c r IH]; simpl; [exact I|].
  destruct (isWhiteSpace c) eqn:W; [exact IH | exact W].
Qed.

Lemma trimStart_fixed (s : string) : noLeadingSpace s -> trimStart s = s.
Proof. destruct s as [|c r]; simpl; [reflexivity | intros ->; reflexivity]. Qed.

Lemma trimEnd_noLeadingSpace (s : string) :
  noLeadingSpace s -> noLeadingSpace (trimEnd s).
Proof.
  destruct s as [|c r]; simpl; [auto|]. intros W.
  destruct (trimEnd r); [rewrite W|]; exact W.
Qed.

Lemma trimEnd_trimEnd (s : string) : trimEnd (trimEnd s) = trimEnd s.
Proof.
  induction s as [|c r IH]; simpl; [reflexivity|].
  destruct (trimEnd r) as [|c' r'] eqn:T.
  - destruct (isWhiteSpace c) eqn:W; simpl; [reflexivity|]. rewrite W. reflexivity.
  - change (trimEnd (String c (String c' r')))
      with (match trimEnd (String c' r') with
            | EmptyString =>
                if isWhiteSpace c then EmptyString else String c EmptyString
            | r'' => String c r''
            end).
    rewrite IH. reflexivity.
Qed.

Lemma trim_trim (s : string) : trim (trim s) = trim s.
Proof.
  unfold trim.
  rewrite (trimStart_fixed (trimEnd (trimStart s)))
    by (apply trimEnd_noLeadingSpace, trimStart_noLeadingSpace).
  apply trimEnd_trimEnd.
Qed.

Lemma goodText_tidy (limit : nat) (s : string) :
  goodText limit s = true -> tidyText limit (trim s).
Proof.
  unfold goodText, tidyText. rewrite andb_true_iff, negb_true_iff.
  rewrite String.eqb_neq, Nat.leb_le. intros [B L].
  split; [apply trim_trim|]. split; [exact B|].
  pose proof (trim_length s). lia.
Qed.

Lemma validPayload_tidy (fd : FormData) (i u : string) :
  validPayload fd = true ->
  tidyPoll (mkPoll i u (trim (questionOf fd)) (map trim (optionsOf fd))).
Proof.
  unfold validPayload, tidyPoll, questionOf. cbn [question options].
  rewrite !andb_true_iff, !Nat.leb_le, length_map.
  intros [[[Q L1] L2] O]. split; [|split; [lia|]].
  - destruct (get fd "question") as [q|]; [|discriminate].
    apply goodText_tidy. exact Q.
  - apply Forall_map, Forall_forall. intros o Ho.
    apply goodText_tidy. eapply forallb_forall in O; eauto.
Qed.

(** X4.  Every poll the actions write is sanitized, and no action spoils one
    that is: if all stored polls are tidy before a call, they are after
    it, whoever calls and with whatever arguments. *)
Theorem stored_polls_stay_tidy (w : AuthResponse) (s : Store) :
  Forall tidyPoll (polls s) ->
  (forall fd, Forall tidyPoll (polls (snd (run w (createPoll fd) s))))
  /\ (forall pollId fd,
        Forall tidyPoll (polls (snd (run w (updatePoll pollId fd) s))))
  /\ (forall pollId, Forall tidyPoll (polls (snd (run w (deletePoll pollId) s))))
  /\ (forall pollId n,
        Forall tidyPoll (polls (snd (run w (submitVote pollId n) s)))).
Proof.
  intros T. split; [|split; [|split]].
  - intros fd.
    destruct (createPoll_effect w fd s) as [-> | [-> | (u & _ & _ & V & _ & ->)]];
      try exact T.
    cbn [polls]. apply Forall_app. split; [exact T|].
    constructor; [apply validPayload_tidy; exact V | constructor].
  - intros pollId fd.
    destruct (updatePoll_effect w pollId fd s) as [-> | (u & _ & _ & V & _ & ->)];
      [exact T|].
    cbn [polls]. apply Forall_map. eapply Forall_impl; [|exact T].
    intros p Tp. destruct (ownedBy pollId (uid u) p); [|exact Tp].
    apply validPayload_tidy. exact V.
  - intros pollId.
    destruct (deletePoll_effect w pollId s) as [-> | (u & _ & _ & _ & ->)];
      [exact T|].
    cbn [polls]. apply Forall_forall. intros p Hp.
    apply filter_In in Hp as [Hp _]. eapply Forall_forall in T; eauto.
  - intros pollId n.
    destruct (submitVote_effect w pollId n s)
      as [[_ ->] | (u & p & q & z & _ & _ & _ & _ & _ & _ & _ & ->)]; exact T.
Qed.

Lemma stored_polls_stay_tidy_witness :
  Forall tidyPoll (polls emptyStore)
  /\ Forall tidyPoll (polls (snd (run alice (createPoll colours) emptyStore)))
  /\ polls (snd (run alice (createPoll colours) emptyStore)) = polls oneBallot.
Proof.
  split; [constructor|]. split; [|reflexivity].
  exact (proj1 (stored_polls_stay_tidy alice emptyStore (Forall_nil _)) colours).
Defined.

(** ** When a vote is accepted *)

Lemma filter_nil_existsb {A : Type} (f : A -> bool) (l : list A) :
  filter f l = [] -> existsb f l = false.
Proof.
  intros H. destruct (existsb f l) eqn:E; [|reflexivity].
  apply existsb_filter_cons in E. rewrite H in E. simpl in E. lia.
Qed.

Lemma Qred_integer (q : Q) (z : Z) : Qred q = inject_Z z <-> (q == inject_Z z)%Q.
Proof.
  split.
  - intros H. rewrite <- (Qred_correct q), H. reflexivity.
  - intros H. rewrite (Qred_complete _ _ H). apply Qred_inject_Z.
Qed.

Lemma guard_integer (q : Q) (z : Z) (k : nat) :
  (q == inject_Z z)%Q ->
  lt (Finite q) (ofNat 0) || ge (Finite q) (ofNat k) = false
  <-> (0 <= z < Z.of_nat k)%Z.
Proof.
  intros E. unfold lt, ge, ofNat, Qlt_bool.
  rewrite orb_false_iff, negb_false_iff, Qle_bool_iff.
  rewrite <- not_true_iff_false, Qle_bool_iff, E, <- !Zle_Qle.
  simpl. lia.
Qed.

(** X5.  For an identifier in the canonical spelling of a uuid,
    [submitVote] succeeds exactly for a signed-in caller, a poll stored
    once under the identifier, an index that is a whole number within the
    poll's options (and within the column's range), and no vote of the
    caller on that poll yet; it then records that one vote and changes
    nothing else. *)
Theorem submitVote_accepts (w : AuthResponse) (pollId : string) (n : number)
  (s : Store) :
  canonical pollId = true ->
  (fst (run w (submitVote pollId n) s) = ok ->
   exists u p q z,
     user w = Some u /\ filter (withId pollId) (polls s) = [p]
     /\ n = Finite q /\ (q == inject_Z z)%Q
     /\ (0 <= z < Z.of_nat (length (options p)))%Z /\ (z <= 2147483647)%Z
     /\ filter (votedBy pollId (uid u)) (votes s) = []
     /\ snd (run w (submitVote pollId n) s)
        = mkStore (polls s) (votes s ++ [mkVote pollId (uid u) z]) (nextUuid s))
  /\ (forall u p q z,
        user w = Some u -> filter (withId pollId) (polls s) = [p] ->
        n = Finite q -> (q == inject_Z z)%Q ->
        (0 <= z < Z.of_nat (length (options p)))%Z -> (z <= 2147483647)%Z ->
        filter (votedBy pollId (uid u)) (votes s) = [] ->
        run w (submitVote pollId n) s
        = (ok, mkStore (polls s) (votes s ++ [mkVote pollId (uid u) z])
                 (nextUuid s))).
Proof.
  intros _. split.
  - intros H.
    destruct (submitVote_effect w pollId n s)
      as [[E _] | (u & p & q & z & U & P & G & -> & R & Z & V & E)].
    + rewrite H in E. contradiction E. reflexivity.
    + apply Qred_integer in R. exists u, p, q, z.
      rewrite E. repeat split; auto; try lia;
        apply (guard_integer q z _ R) in G; lia.
  - intros u p q z U P -> E Z0 Z1 V.
    rewrite (submitVote_run _ _ _ _ _ _ U P).
    rewrite (proj2 (guard_integer q z _ E) Z0).
    unfold voteExisting. cbn [run handle]. rewrite V. cbn [single].
    unfold voteInsert. cbn [run handle].
    assert (I : votesInsert pollId (uid u) (Finite q) s
                = (None, mkStore (polls s) (votes s ++ [mkVote pollId (uid u) z])
                           (nextUuid s))).
    { apply votesInsert_accepts. exists q, z.
      repeat split; auto; try lia.
      - apply Qred_integer. exact E.
      - apply filter_nil_existsb. exact V.
      - eapply filter_cons_existsb. exact P. }
    rewrite I. reflexivity.
Qed.

Lemma submitVote_accepts_witness :
  canonical (genUuid 0) = true
  /\ run bob (submitVote (genUuid 0) (ofNat 1)) oneBallot = (ok, bobVoted).
Proof.
  split; [reflexivity|].
  refine (proj2 (submitVote_accepts bob (genUuid 0) (ofNat 1) oneBallot eq_refl)
            (mkUser "22222222-2222-4222-8222-222222222222")
            (mkPoll (genUuid 0) "11111111-1111-4111-8111-111111111111"
               "Favourite colour?" ["red"; "green"; "blue"])
            (inject_Z 1) 1%Z eq_refl eq_refl eq_refl _ _ _ eq_refl).
  - reflexivity.
  - cbn; lia.
  - lia.
Defined.

(** X7.  Once a vote of a caller on a poll is recorded, every further
    [submitVote] of that caller on that poll with an index in range is
    answered [AlreadyVoted] and changes nothing: a vote cannot be cast
    again or moved to another option. *)
Theorem no_second_vote (w : AuthResponse) (pollId : string) (n n' : number)
  (s : Store) (p : PollRow) :
  fst (run w (submitVote pollId n) s) = ok ->
  filter (withId pollId) (polls s) = [p] ->
  inRange n' (length (options p)) = true ->
  run w (submitVote pollId n') (snd (run w (submitVote pollId n) s))
  = (fail AlreadyVoted, snd (run w (submitVote pollId n) s)).
Proof.
  intros H P R.
  destruct (submitVote_effect w pollId n s)
    as [[E _] | (u & p' & q & z & U & _ & _ & _ & _ & _ & V & E)].
  - rewrite H in E. contradiction E. reflexivity.
  - rewrite E. cbn [snd].
    rewrite (submitVote_run w u pollId n'
               (mkStore (polls s) (votes s ++ [mkVote pollId (uid u) z])
                  (nextUuid s)) p U P), (inRange_guard _ _ R).
    unfold voteExisting. cbn [run handle votes].
    rewrite filter_app, V. cbn [filter app]. unfold votedBy.
    cbn [poll_id voter_id]. rewrite !String.eqb_refl. reflexivity.
Qed.

Lemma no_second_vote_witness :
  fst (run bob (submitVote (genUuid 0) (ofNat 1)) oneBallot) = ok
  /\ inRange (ofNat 2) 3 = true
  /\ run bob (submitVote (genUuid 0) (ofNat 2)) bobVoted
     = (fail AlreadyVoted, bobVoted).
Proof.
  split; [reflexivity|]. split; [reflexivity|].
  exact (no_second_vote bob (genUuid 0) (ofNat 1) (ofNat 2) oneBallot
           (mkPoll (genUuid 0) "11111111-1111-4111-8111-111111111111"
              "Favourite colour?" ["red"; "green"; "blue"])
           eq_refl eq_refl eq_refl).
Defined.

(** ** After a poll is deleted *)




(** ** Reading one poll *)

(** X9.  [getPollById] never changes the store and answers with an error
    exactly when it answers with no poll.  For an identifier in the
    canonical spelling of a uuid it answers with a poll exactly when the
    store holds one row under the identifier, and then with that row and
    no error. *)
Theorem getPollById_answers (w : AuthResponse) (pollId : string) (s : Store) :
  snd (run w (getPollById pollId) s) = s
  /\ (poll (fst (run w (getPollById pollId) s)) = None
      <-> pollError (fst (run w (getPollById pollId) s)) <> None)
  /\ (canonical pollId = true ->
      (forall p, poll (fst (run w (getPollById pollId) s)) = Some p
                 <-> filter (withId pollId) (polls s) = [p])
      /\ (forall p, poll (fst (run w (getPollById pollId) s)) = Some p ->
                    id p = pollId /\ In p (polls s)
                    /\ pollError (fst (run w (getPollById pollId) s)) = None)).
Proof.
  simpl.
  destruct (single (filter (withId pollId) (polls s))) as [p0|e] eqn:S; simpl.
  - apply single_one in S. split; [reflexivity|]. split; [|intros _; split].
    + split; [discriminate | intros H; contradiction H; reflexivity].
    + intros p. rewrite S. split; intros [= ->]; reflexivity.
    + intros p [= <-].
      assert (I : In p0 (filter (withId pollId) (polls s)))
        by (rewrite S; left; reflexivity).
      apply filter_In in I as [I W]. apply String.eqb_eq in W. auto.
  - split; [reflexivity|]. split; [|intros _; split].
    + split; [discriminate | reflexivity].
    + intros p. split; [discriminate|].
      intros F. apply single_one in F. congruence.
    + intros p. discriminate.
Qed.

Lemma getPollById_answers_witness :
  canonical (genUuid 0) = true /\ canonical (genUuid 1) = true
  /\ poll (fst (run nobody (getPollById (genUuid 0)) oneBallot))
     = Some (mkPoll (genUuid 0) "11111111-1111-4111-8111-111111111111"
               "Favourite colour?" ["red"; "green"; "blue"])
  /\ pollError (fst (run nobody (getPollById (genUuid 1)) oneBallot)) <> None.
Proof.
  split; [reflexivity|]. split; [reflexivity|]. split.
  - exact (proj2 (proj1 (proj2 (proj2
             (getPollById_answers nobody (genUuid 0) oneBallot)) eq_refl) _)
             eq_refl).
  - exact (proj1 (proj1 (proj2
             (getPollById_answers nobody (genUuid 1) oneBallot))) eq_refl).
Defined.

(** ** The payload checks, case by case *)

Lemma payloadReturn_cases (fd : FormData) :
  blankQuestion fd /\ payloadReturn fd = Some (fail EmptyQuestion)
  \/ (exists q, get fd "question" = Some q /\ trim q <> ""
        /\ 500 < String.length q)
     /\ payloadReturn fd = Some (fail QuestionTooLong)
  \/ goodQuestion fd
     /\ payloadReturn fd =
        if (length (optionsOf fd) <? 2)%nat then Some (fail TooFewOptions)
        else if (10 <? length (optionsOf fd))%nat then Some (fail TooManyOptions)
        else forEachOption (optionsOf fd).
Proof.
  unfold blankQuestion, goodQuestion.
  destruct (questionMissing (get fd "question")) eqn:M.
  - left. split; [|unfold payloadReturn; rewrite M; reflexivity].
    destruct (get fd "question") as [q|] eqn:G; [|exact I].
    destruct (String.eqb_spec (trim q) "") as [B|B]; [exact B|].
    assert (questionMissing (Some q) = false)
      by (apply questionMissing_false; eauto).
    congruence.
  - apply questionMissing_false in M as (q & G & B).
    destruct (Nat.ltb_spec 500 (String.length q)) as [L|L].
    + right. left. split; [eauto|].
      apply payloadReturn_QuestionTooLong. eauto.
    + right. right.
      assert (Gd : goodText 500 q = true).
      { unfold goodText. apply String.eqb_neq in B. rewrite B.
        apply Nat.leb_le. exact L. }
      split; [eauto | apply (payloadReturn_options _ _ G Gd)].
Qed.

Lemma blank_not_good (fd : FormData) : blankQuestion fd -> goodQuestion fd -> False.
Proof.
  unfold blankQuestion, goodQuestion. intros B (q & G & T). rewrite G in B.
  unfold goodText in T. rewrite B in T. discriminate.
Qed.

(** X10.  The payload answers of [createPoll], exactly: [EmptyQuestion] when the
    question is missing, empty or blank; with a question that passes,
    [TooFewOptions] for fewer than 2 and [TooManyOptions] for more than 10
    options left after empty strings are dropped.  [updatePoll] gives the
    same payload answers and adds only [MalformedId]; and [createPoll]
    goes on to ask who is calling exactly when the payload is valid. *)
Theorem payload_answers (pollId : string) (fd : FormData) :
  (createPoll fd = Ret (fail EmptyQuestion) <-> blankQuestion fd)
  /\ (createPoll fd = Ret (fail TooFewOptions)
      <-> goodQuestion fd /\ length (optionsOf fd) < 2)
  /\ (createPoll fd = Ret (fail TooManyOptions)
      <-> goodQuestion fd /\ 10 < length (optionsOf fd))
  /\ (forall r, updatePoll pollId fd = Ret r
                <-> createPoll fd = Ret r
                    \/ validPayload fd = true /\ test uuidRegex pollId = false
                       /\ r = fail MalformedId)
  /\ (validPayload fd = true <-> createPoll fd = createPollRest fd).
Proof.
  split; [|split; [|split; [|split]]].
  - rewrite createPoll_Ret.
    destruct (payloadReturn_cases fd) as [[B ->] | [[(q & G & B & L) ->] | [Gd ->]]].
    + tauto.
    + split; [intros H; other_kind|].
      unfold blankQuestion. rewrite G. contradiction.
    + split.
      * destruct (_ <? _)%nat; [intros H; other_kind|].
        destruct (_ <? _)%nat; [intros H; other_kind|].
        intros H. apply forEachOption_kinds in H as [H|H]; other_kind.
      * intros B. destruct (blank_not_good _ B Gd).
  - rewrite createPoll_Ret.
    destruct (payloadReturn_cases fd) as [[B ->] | [[(q & G & B & L) ->] | [Gd ->]]].
    + split; [intros H; other_kind | intros [Gd _]; destruct (blank_not_good _ B Gd)].
    + split; [intros H; other_kind|].
      intros [(q' & G' & T) _]. rewrite G in G'. injection G' as <-.
      apply goodText_spec in T as [_ T]. apply Nat.ltb_ge in T. lia.
    + destruct (Nat.ltb_spec (length (optionsOf fd)) 2); [tauto|].
      split; [|lia].
      destruct (_ <? _)%nat; [intros H'; other_kind|].
      intros H'. apply forEachOption_kinds in H' as [H'|H']; other_kind.
  - rewrite createPoll_Ret.
    destruct (payloadReturn_cases fd) as [[B ->] | [[(q & G & B & L) ->] | [Gd ->]]].
    + split; [intros H; other_kind | intros [Gd _]; destruct (blank_not_good _ B Gd)].
    + split; [intros H; other_kind|].
      intros [(q' & G' & T) _]. rewrite G in G'. injection G' as <-.
      apply goodText_spec in T as [_ T]. apply Nat.ltb_ge in T. lia.
    + destruct (Nat.ltb_spec (length (optionsOf fd)) 2); [split; [intros H'; other_kind | lia]|].
      destruct (Nat.ltb_spec 10 (length (optionsOf fd))); [tauto|].
      split; [|lia].
      intros H'. apply forEachOption_kinds in H' as [H'|H']; other_kind.
  - intros r. rewrite updatePoll_Ret, createPoll_Ret, payloadReturn_None. tauto.
  - rewrite <- payloadReturn_None, createPoll_payload.
    destruct (payloadReturn fd); split; try reflexivity; discriminate.
Qed.

(** * The caller's polls *)

(** X11.  [getUserPolls] returns the caller's polls, all of them and no one
    else's, newest first, and no error. *)
Theorem getUserPolls_own_polls (w : AuthResponse) (u : User) (s : Store) :
  user w = Some u ->
  userPollsError (runListing w getUserPolls s) = None
  /\ (forall p, In p (userPolls (runListing w getUserPolls s))
                <-> In p (polls s) /\ user_id p = uid u)
  /\ userPolls (runListing w getUserPolls s) = rev (ownedRows (uid u) s).
Proof.
  intros U. simpl. rewrite U. simpl. split; [reflexivity|]. split; [|reflexivity].
  intros p. rewrite <- in_rev. unfold ownedRows. rewrite filter_In, String.eqb_eq.
  reflexivity.
Qed.

Lemma getUserPolls_own_polls_witness :
  user alice = Some (mkUser "11111111-1111-4111-8111-111111111111")
  /\ userPolls (runListing alice getUserPolls oneBallot) = polls oneBallot
  /\ userPolls (runListing bob getUserPolls oneBallot) = [].
Proof.
  split; [reflexivity|]. split.
  - exact (proj2 (proj2 (getUserPolls_own_polls alice
             (mkUser "11111111-1111-4111-8111-111111111111") oneBallot eq_refl))).
  - reflexivity.
Defined.

(** X12.  The other answers of [getUserPolls], whoever gives the replies: without
    a user it answers [Not authenticated] with no polls and asks the store
    nothing (an error of the identity provider is not looked at); an error
    of the store is passed on as its message with no polls; rows missing
    without an error count as no polls. *)
Theorem getUserPolls_other_answers (o : forall A : Type, ListReq A -> A) :
  (user (o _ ListGetUser) = None ->
   runListingWith o getUserPolls = mkUserPolls [] (Some "Not authenticated"))
  /\ (forall u e,
        user (o _ ListGetUser) = Some u ->
        selectedError (o _ (PollsSelectByUser (uid u))) = Some e ->
        runListingWith o getUserPolls = mkUserPolls [] (Some (message e)))
  /\ (forall u,
        user (o _ ListGetUser) = Some u ->
        selectedError (o _ (PollsSelectByUser (uid u))) = None ->
        selectedData (o _ (PollsSelectByUser (uid u))) = None ->
        runListingWith o getUserPolls = mkUserPolls [] None).
Proof.
  split; [|split].
  - intros U. simpl. rewrite U. reflexivity.
  - intros u e U E. simpl. rewrite U. simpl. rewrite E. reflexivity.
  - intros u U E D. simpl. rewrite U. simpl. rewrite E, D. reflexivity.
Qed.

Lemma rev_filter {A : Type} (f : A -> bool) (l : list A) :
  rev (filter f l) = filter f (rev l).
Proof.
  induction l as [|x l IH]; simpl; [reflexivity|].
  rewrite filter_app, <- IH. simpl. destruct (f x); simpl;
    [reflexivity | rewrite app_nil_r; reflexivity].
Qed.

(** X13.  After a [createPoll] with a payload that passes and holds no
    U+0000, the new poll heads the creator's listing, in front of what
    was listed before; the listing of every other user is what it was.
    With U+0000 in the payload the store refuses the poll and every
    listing is what it was. *)
Theorem createPoll_then_getUserPolls (u : User) (fd : FormData) (s : Store) :
  validPayload fd = true ->
  existsb (withId (genUuid (nextUuid s))) (polls s) = false ->
  let s' := snd (run (signedIn u) (createPoll fd) s) in
  (storable fd = true ->
   fst (run (signedIn u) (createPoll fd) s) = ok
   /\ userPolls (runListing (signedIn u) getUserPolls s')
      = mkPoll (genUuid (nextUuid s)) (uid u)
          (trim (questionOf fd)) (map trim (optionsOf fd))
        :: userPolls (runListing (signedIn u) getUserPolls s)
   /\ forall u', uid u' <> uid u ->
        runListing (signedIn u') getUserPolls s'
        = runListing (signedIn u') getUserPolls s)
  /\ (storable fd = false ->
      fst (run (signedIn u) (createPoll fd) s) <> ok
      /\ forall w, runListing w getUserPolls s' = runListing w getUserPolls s).
Proof.
  intros V F. cbv zeta. split.
  - intros T. rewrite (createPoll_run u fd s V T F). cbn [fst snd].
    split; [reflexivity|]. split.
    + simpl. unfold ownedRows. cbn [polls]. rewrite filter_app.
      cbn [filter user_id].
      rewrite String.eqb_refl, rev_app_distr. reflexivity.
    + intros u' D. simpl. unfold ownedRows. cbn [polls]. rewrite filter_app.
      cbn [filter user_id]. apply not_eq_sym, String.eqb_neq in D. rewrite D.
      rewrite app_nil_r. reflexivity.
  - intros T. rewrite (createPoll_refused u fd s V T). cbn [fst snd].
    split; [discriminate | reflexivity].
Qed.

Lemma createPoll_then_getUserPolls_witness :
  validPayload colours = true
  /\ existsb (withId (genUuid 1)) (polls oneBallot) = false
  /\ storable colours = true
  /\ map id (userPolls (runListing alice getUserPolls
                          (snd (run alice (createPoll colours) oneBallot))))
     = [genUuid 1; genUuid 0]
  /\ validPayload withNul = true /\ storable withNul = false
  /\ map id (userPolls (runListing alice getUserPolls
                          (snd (run alice (createPoll withNul) oneBallot))))
     = [genUuid 0].
Proof.
  split; [reflexivity|]. split; [reflexivity|]. split; [reflexivity|].
  split.
  - exact (f_equal (map id) (proj1 (proj2 (proj1 (createPoll_then_getUserPolls
             (mkUser "11111111-1111-4111-8111-111111111111") colours oneBallot
             eq_refl eq_refl) eq_refl)))).
  - split; [reflexivity|]. split; [reflexivity|].
    exact (f_equal (fun r => map id (userPolls r))
             (proj2 (proj2 (createPoll_then_getUserPolls
                (mkUser "11111111-1111-4111-8111-111111111111") withNul
                oneBallot eq_refl eq_refl) eq_refl) alice)).
Defined.

Lemma ownedRows_after_delete (i u : string) (l : list PollRow) :
  filter (fun p => user_id p =? u) (filter (fun p => negb (ownedBy i u p)) l)
  = filter (fun p => negb (id p =? i)) (filter (fun p => user_id p =? u) l).
Proof.
  unfold ownedBy. induction l as [|p l IH]; [reflexivity|]. cbn [filter].
  destruct (user_id p =? u) eqn:M, (id p =? i) eqn:W;
    cbn [andb negb filter]; rewrite ?M, ?W; cbn [negb]; rewrite IH; reflexivity.
Qed.

Lemma ownedRows_after_update (i u q : string) (o : list string)
  (l : list PollRow) :
  filter (fun p => user_id p =? u)
    (map (fun p => if ownedBy i u p then mkPoll (id p) (user_id p) q o else p) l)
  = map (fun p => if id p =? i then mkPoll (id p) (user_id p) q o else p)
      (filter (fun p => user_id p =? u) l).
Proof.
  unfold ownedBy. induction l as [|p l IH]; [reflexivity|]. cbn [map filter].
  destruct (user_id p =? u) eqn:M, (id p =? i) eqn:W;
    cbn [andb user_id map filter]; rewrite ?M, ?W; cbn [map];
    rewrite ?W, IH; reflexivity.
Qed.

(** X14.  The listing follows the owner's writes: after [deletePoll] the
    deleted poll is missing from the owner's listing and the rest is as
    before; after [updatePoll] with a payload that passes and holds no
    U+0000 the poll shows its new question and options at the place it
    had, with its identifier and owner unchanged; an [updatePoll] with
    U+0000 in its payload is refused and the listing is what it was. *)
Theorem owner_writes_then_getUserPolls (u : User) (target : PollRow)
  (fd : FormData) (s : Store) :
  filter (withId (id target)) (polls s) = [target] ->
  user_id target = uid u ->
  userPolls (runListing (signedIn u) getUserPolls
               (snd (run (signedIn u) (deletePoll (id target)) s)))
  = filter (fun p => negb (id p =? id target))
      (userPolls (runListing (signedIn u) getUserPolls s))
  /\ (validPayload fd = true -> storable fd = true ->
      test uuidRegex (id target) = true ->
      userPolls (runListing (signedIn u) getUserPolls
                   (snd (run (signedIn u) (updatePoll (id target) fd) s)))
      = map (fun p => if id p =? id target
                      then mkPoll (id p) (user_id p)
                             (trim (questionOf fd)) (map trim (optionsOf fd))
                      else p)
          (userPolls (runListing (signedIn u) getUserPolls s)))
  /\ (validPayload fd = true -> storable fd = false ->
      test uuidRegex (id target) = true ->
      fst (run (signedIn u) (updatePoll (id target) fd) s) <> ok
      /\ runListing (signedIn u) getUserPolls
           (snd (run (signedIn u) (updatePoll (id target) fd) s))
         = runListing (signedIn u) getUserPolls s).
Proof.
  intros T O.
  assert (O1 : existsb (ownedBy (id target) (uid u)) (polls s) = true).
  { rewrite (owned_iff _ _ _ _ T), O. apply String.eqb_refl. }
  split; [|split].
  - rewrite deletePoll_run, O1. simpl. unfold ownedRows. cbn [polls].
    rewrite ownedRows_after_delete, <- rev_filter. reflexivity.
  - intros V S U. rewrite (updatePoll_run _ _ _ _ V S U), O1. simpl.
    unfold ownedRows. cbn [polls].
    rewrite ownedRows_after_update, map_rev. reflexivity.
  - intros V S U. rewrite (updatePoll_refused _ _ _ _ V S U O1).
    cbn [fst snd]. split; [discriminate | reflexivity].
Qed.

Lemma owner_writes_then_getUserPolls_witness :
  filter (withId (genUuid 0)) (polls bobVoted) = polls bobVoted
  /\ userPolls (runListing alice getUserPolls
                  (snd (run alice (deletePoll (genUuid 0)) bobVoted))) = []
  /\ validPayload colours = true /\ storable colours = true
  /\ test uuidRegex (genUuid 0) = true
  /\ userPolls (runListing alice getUserPolls
                  (snd (run alice
                          (updatePoll (genUuid 0) [("question", "Tea?");
                             ("options", "yes "); ("options", "no")])
                          bobVoted)))
     = [mkPoll (genUuid 0) "11111111-1111-4111-8111-111111111111"
          "Tea?" ["yes"; "no"]].
Proof.
  pose (T := fun fd =>
               owner_writes_then_getUserPolls
                 (mkUser "11111111-1111-4111-8111-111111111111")
                 (mkPoll (genUuid 0) "11111111-1111-4111-8111-111111111111"
                    "Favourite colour?" ["red"; "green"; "blue"])
                 fd bobVoted eq_refl eq_refl).
  split; [reflexivity|].
  split; [exact (proj1 (T colours))|].
  split; [reflexivity|]. split; [reflexivity|]. split; [reflexivity|].
  exact (proj1 (proj2 (T [("question", "Tea?"); ("options", "yes ");
                          ("options", "no")])) eq_refl eq_refl eq_refl).
Defined.

(** * Rate limits *)

Lemma rate_get_set (m : RateLimit.Map) (k : string) (v : RateLimit.Limits) :
  RateLimit.get (RateLimit.set m k v) k = Some v.
Proof.
  induction m as [|[k' v'] m IH]; simpl.
  - rewrite String.eqb_refl. reflexivity.
  - destruct (k' =? k) eqn:E; simpl; [rewrite String.eqb_refl | rewrite E]; auto.
Qed.

Lemma rate_get_set_other (m : RateLimit.Map) (k k' : string)
  (v : RateLimit.Limits) :
  k' <> k -> RateLimit.get (RateLimit.set m k v) k' = RateLimit.get m k'.
Proof.
  intros D. induction m as [|[k0 v0] m IH]; simpl.
  - apply not_eq_sym, String.eqb_neq in D. rewrite D. reflexivity.
  - destruct (k0 =? k) eqn:E; simpl.
    + apply String.eqb_eq in E. subst k0.
      apply not_eq_sym, String.eqb_neq in D. rewrite D. reflexivity.
    + destruct (k0 =? k'); [reflexivity | exact IH].
Qed.

Lemma rate_set_same (m : RateLimit.Map) (k : string) (v : RateLimit.Limits) :
  RateLimit.get m k = Some v -> RateLimit.set m k v = m.
Proof.
  induction m as [|[k0 v0] m IH]; simpl; [discriminate|].
  destruct (k0 =? k) eqn:E.
  - apply String.eqb_eq in E. intros [= ->]. subst. reflexivity.
  - intros H. rewrite (IH H). reflexivity.
Qed.

Lemma rate_set_set (m : RateLimit.Map) (k : string) (v v' : RateLimit.Limits) :
  RateLimit.set (RateLimit.set m k v) k v' = RateLimit.set m k v'.
Proof.
  induction m as [|[k0 v0] m IH]; simpl.
  - rewrite String.eqb_refl. reflexivity.
  - destruct (k0 =? k) eqn:E; simpl; [rewrite String.eqb_refl | rewrite E, IH];
      reflexivity.
Qed.

(** One call inside the current window. *)
Lemma checkRateLimit_in_window (userId action : string)
  (maxAttempts windowMs : option Z) (now c R : Z) (m : RateLimit.Map) :
  RateLimit.get m (RateLimit.keyOf userId action) = Some (RateLimit.mkLimits c R) ->
  (now <= R)%Z ->
  RateLimit.checkRateLimit userId action maxAttempts windowMs now m
  = (RateLimit.verdictAt (RateLimit.orDefault 5 maxAttempts) c R,
     if (RateLimit.orDefault 5 maxAttempts <=? c)%Z then m
     else RateLimit.set m (RateLimit.keyOf userId action)
            (RateLimit.mkLimits (c + 1) R)).
Proof.
  intros G L. unfold RateLimit.checkRateLimit, RateLimit.verdictAt. rewrite G.
  cbn [RateLimit.resetTime RateLimit.count].
  destruct (Z.ltb_spec R now); [lia|].
  cbn [RateLimit.resetTime RateLimit.count].
  rewrite (rate_set_same _ _ _ G).
  destruct (RateLimit.orDefault 5 maxAttempts <=? c)%Z; reflexivity.
Qed.

(** X15.  Inside one window the limiter counts, for a limit, a count that
    is not negative and times that are safe integers: with [c] attempts
    counted and the window open until [R], the calls made at times up to
    [R] are allowed as long as fewer than [maxAttempts] attempts are
    counted, each reporting what is left after it; from then on they are
    denied with nothing remaining.  A time equal to [R] is still inside
    the window.  Denied calls do not count. *)
Theorem rate_limit_within_window (userId action : string)
  (maxAttempts windowMs : option Z) (times : list Z) (c R : Z)
  (m : RateLimit.Map) :
  RateLimit.get m (RateLimit.keyOf userId action) = Some (RateLimit.mkLimits c R) ->
  (0 <= c)%Z -> RateLimit.isSafeInteger c = true ->
  RateLimit.isSafeInteger R = true ->
  RateLimit.isSafeInteger (RateLimit.orDefault 5 maxAttempts) = true ->
  Forall (fun now => RateLimit.isSafeInteger now = true /\ (now <= R)%Z) times ->
  let limit := RateLimit.orDefault 5 maxAttempts in
  fst (RateLimit.calls userId action maxAttempts windowMs times m)
  = map (fun i =>
           if (c + Z.of_nat i <? limit)%Z
           then RateLimit.mkVerdict true (limit - (c + Z.of_nat i + 1)) R
           else RateLimit.mkVerdict false 0 R)
      (seq 0 (length times))
  /\ RateLimit.get (snd (RateLimit.calls userId action maxAttempts windowMs times m))
       (RateLimit.keyOf userId action)
     = Some (RateLimit.mkLimits
               (Z.max c (Z.min (c + Z.of_nat (length times)) limit)) R).
Proof.
  intros G _ _ _ _ T'. cbv zeta.
  assert (T : Forall (fun now => (now <= R)%Z) times)
    by (apply (Forall_impl _ (fun now H => proj2 H) T')).
  clear T'. revert c m G.
  induction T as [|now later L T IH]; intros c m G.
  - simpl. split; [reflexivity|]. rewrite G. do 2 f_equal. lia.
  - cbn [RateLimit.calls length seq map].
    rewrite (checkRateLimit_in_window _ _ _ _ _ _ _ _ G L).
    unfold RateLimit.verdictAt.
    destruct (Z.leb_spec (RateLimit.orDefault 5 maxAttempts) c) as [F|F].
    + specialize (IH c m G).
      destruct (RateLimit.calls userId action maxAttempts windowMs later m)
        as [vs m'].
      cbn [fst snd] in *. destruct IH as [-> ->]. split.
      * destruct (Z.ltb_spec (c + Z.of_nat 0) (RateLimit.orDefault 5 maxAttempts));
          [lia|].
        f_equal. rewrite <- seq_shift, map_map. apply map_ext. intros i.
        destruct (Z.ltb_spec (c + Z.of_nat i) (RateLimit.orDefault 5 maxAttempts));
          [lia|].
        destruct (Z.ltb_spec (c + Z.of_nat (S i)) (RateLimit.orDefault 5 maxAttempts));
          [lia | reflexivity].
      * do 2 f_equal. lia.
    + specialize (IH (c + 1)%Z
                    (RateLimit.set m (RateLimit.keyOf userId action)
                       (RateLimit.mkLimits (c + 1) R))
                    (rate_get_set _ _ _)).
      destruct (RateLimit.calls userId action maxAttempts windowMs later _)
        as [vs m'].
      cbn [fst snd] in *. destruct IH as [-> ->]. split.
      * destruct (Z.ltb_spec (c + Z.of_nat 0) (RateLimit.orDefault 5 maxAttempts));
          [|lia].
        f_equal; [f_equal; lia|].
        rewrite <- seq_shift, map_map. apply map_ext. intros i.
        replace (c + 1 + Z.of_nat i)%Z with (c + Z.of_nat (S i))%Z by lia.
        reflexivity.
      * do 2 f_equal. lia.
Qed.

Lemma rate_limit_within_window_witness :
  RateLimit.get [("u:vote", RateLimit.mkLimits 3 1000)] (RateLimit.keyOf "u" "vote")
  = Some (RateLimit.mkLimits 3 1000)
  /\ Forall (fun now => RateLimit.isSafeInteger now = true /\ (now <= 1000)%Z)
       [10; 1000; 500]%Z
  /\ fst (RateLimit.calls "u" "vote" None None [10; 1000; 500]%Z
            [("u:vote", RateLimit.mkLimits 3 1000)])
     = [RateLimit.mkVerdict true 1 1000; RateLimit.mkVerdict true 0 1000;
        RateLimit.mkVerdict false 0 1000].
Proof.
  assert (T : Forall (fun now => RateLimit.isSafeInteger now = true
                                 /\ (now <= 1000)%Z) [10; 1000; 500]%Z)
    by (repeat constructor; discriminate).
  split; [reflexivity|]. split; [exact T|].
  exact (proj1 (rate_limit_within_window "u" "vote" None None
                  [10; 1000; 500]%Z 3 1000
                  [("u:vote", RateLimit.mkLimits 3 1000)]
                  eq_refl ltac:(discriminate) eq_refl eq_refl eq_refl T)).
Defined.

(** X16.  For a limit, a window, a time and an end of the new window that
    are safe integers: a call for a key that is unknown, or whose window
    has run out (the time is strictly after [resetTime]), opens a window
    of [windowMs] from now.  It is allowed exactly when the limit is
    positive and then counts as the first attempt.  When it is denied, an
    unknown key stays unknown, while the entry of a known key has been
    reset all the same. *)
Theorem rate_limit_new_window (userId action : string)
  (maxAttempts windowMs : option Z) (now : Z) (m : RateLimit.Map) :
  let key := RateLimit.keyOf userId action in
  let limit := RateLimit.orDefault 5 maxAttempts in
  let window := RateLimit.orDefault 60000 windowMs in
  let r := RateLimit.checkRateLimit userId action maxAttempts windowMs now m in
  RateLimit.isSafeInteger limit = true ->
  RateLimit.isSafeInteger window = true ->
  RateLimit.isSafeInteger now = true ->
  RateLimit.isSafeInteger (now + window) = true ->
  (RateLimit.get m key = None
   \/ exists c R, RateLimit.get m key = Some (RateLimit.mkLimits c R)
                  /\ RateLimit.isSafeInteger R = true /\ (R < now)%Z) ->
  fst r = (if (0 <? limit)%Z
           then RateLimit.mkVerdict true (limit - 1) (now + window)
           else RateLimit.mkVerdict false 0 (now + window))
  /\ ((0 < limit)%Z ->
      RateLimit.get (snd r) key = Some (RateLimit.mkLimits 1 (now + window)))
  /\ ((limit <= 0)%Z -> RateLimit.get m key = None -> snd r = m)
  /\ ((limit <= 0)%Z -> RateLimit.get m key <> None ->
      RateLimit.get (snd r) key = Some (RateLimit.mkLimits 0 (now + window))).
Proof.
  cbv zeta. unfold RateLimit.checkRateLimit.
  intros _ _ _ _ [G | (c & R & G & _ & E)]; rewrite G;
    cbn [RateLimit.resetTime RateLimit.count].
  - destruct (Z.ltb_spec (now + RateLimit.orDefault 60000 windowMs) now);
      cbn [RateLimit.resetTime RateLimit.count];
      destruct (Z.leb_spec (RateLimit.orDefault 5 maxAttempts) 0);
      destruct (Z.ltb_spec 0 (RateLimit.orDefault 5 maxAttempts)); try lia;
      cbn [fst snd]; (split; [reflexivity|]);
      (split; [intros; try lia; apply rate_get_set|]);
      (split; [intros; try lia; reflexivity|]);
      intros ? N; try lia; contradiction N; reflexivity.
  - destruct (Z.ltb_spec R now); [|lia].
    cbn [RateLimit.resetTime RateLimit.count].
    destruct (Z.leb_spec (RateLimit.orDefault 5 maxAttempts) 0);
      destruct (Z.ltb_spec 0 (RateLimit.orDefault 5 maxAttempts)); try lia;
      cbn [fst snd]; (split; [reflexivity|]);
      (split; [intros; try lia; apply rate_get_set|]);
      (split; [intros ? N; try lia; discriminate N|]);
      intros; try lia; apply rate_get_set.
Qed.

Lemma rate_limit_new_window_witness :
  (exists c R, RateLimit.get [("u:vote", RateLimit.mkLimits 5 1000)]
                 (RateLimit.keyOf "u" "vote")
               = Some (RateLimit.mkLimits c R)
               /\ RateLimit.isSafeInteger R = true /\ (R < 1001)%Z)
  /\ RateLimit.isSafeInteger (1001 + 60000) = true
  /\ fst (RateLimit.checkRateLimit "u" "vote" None None 1001
            [("u:vote", RateLimit.mkLimits 5 1000)])
     = RateLimit.mkVerdict true 4 61001
  /\ fst (RateLimit.checkRateLimit "u" "vote" None None 1000
            [("u:vote", RateLimit.mkLimits 5 1000)])
     = RateLimit.mkVerdict false 0 1000.
Proof.
  assert (H : exists c R,
             RateLimit.get [("u:vote", RateLimit.mkLimits 5 1000)]
               (RateLimit.keyOf "u" "vote")
             = Some (RateLimit.mkLimits c R)
             /\ RateLimit.isSafeInteger R = true /\ (R < 1001)%Z).
  { exists 5%Z, 1000%Z. repeat split. }
  split; [exact H|]. split; [reflexivity|]. split; [|reflexivity].
  exact (proj1 (rate_limit_new_window "u" "vote" None None 1001
                  [("u:vote", RateLimit.mkLimits 5 1000)]
                  eq_refl eq_refl eq_refl eq_refl (or_intror H))).
Defined.


Lemma keyOf_apart (u1 a1 u2 a2 : string) :
  RateLimit.hasColon u1 = false -> RateLimit.hasColon u2 = false ->
  RateLimit.keyOf u1 a1 = RateLimit.keyOf u2 a2 -> u1 = u2 /\ a1 = a2.
Proof.
  unfold RateLimit.keyOf. revert u2.
  induction u1 as [|c1 r1 IH]; intros [|c2 r2];
    cbn [RateLimit.hasColon String.append].
  - intros _ _ E. injection E as E. auto.
  - intros _ H E. injection E as E1 E2. subst c2. discriminate H.
  - intros H _ E. injection E as E1 E2. subst c1. discriminate H.
  - rewrite !orb_false_iff. intros [_ H1] [_ H2] E. injection E as E1 E2. subst c2.
    destruct (IH _ H1 H2 E2) as [-> ->]. auto.
Qed.

Lemma checkRateLimit_other_key (userId action : string)
  (maxAttempts windowMs : option Z) (now : Z) (m : RateLimit.Map) (k : string) :
  k <> RateLimit.keyOf userId action ->
  RateLimit.get
    (snd (RateLimit.checkRateLimit userId action maxAttempts windowMs now m)) k
  = RateLimit.get m k.
Proof.
  intros D. unfold RateLimit.checkRateLimit.
  destruct (RateLimit.get m (RateLimit.keyOf userId action)) as [l|];
    destruct (_ <? _)%Z; destruct (_ <=? _)%Z; cbn [snd];
    rewrite ?(rate_get_set_other _ _ _ _ D); reflexivity.
Qed.

(** X17.  Counters are kept apart: as long as user ids contain no colon, a call
    for one (user, action) pair leaves the limits of every other pair as
    they were. *)
Theorem rate_limit_pairs_apart (u1 a1 u2 a2 : string)
  (maxAttempts windowMs : option Z) (now : Z) (m : RateLimit.Map) :
  RateLimit.hasColon u1 = false -> RateLimit.hasColon u2 = false ->
  u1 <> u2 \/ a1 <> a2 ->
  RateLimit.get
    (snd (RateLimit.checkRateLimit u1 a1 maxAttempts windowMs now m))
    (RateLimit.keyOf u2 a2)
  = RateLimit.get m (RateLimit.keyOf u2 a2).
Proof.
  intros C1 C2 D. apply checkRateLimit_other_key.
  intros E. destruct (keyOf_apart _ _ _ _ C2 C1 E) as [E1 E2].
  destruct D as [D|D]; apply D; symmetry; assumption.
Qed.

Lemma rate_limit_pairs_apart_witness :
  RateLimit.hasColon "22222222-2222-4222-8222-222222222222" = false
  /\ RateLimit.get
       (snd (RateLimit.checkRateLimit "22222222-2222-4222-8222-222222222222"
               "create_poll" (Some 10%Z) (Some 3600000%Z) 7
               [("22222222-2222-4222-8222-222222222222:vote",
                 RateLimit.mkLimits 2 100)]))
       (RateLimit.keyOf "22222222-2222-4222-8222-222222222222" "vote")
     = Some (RateLimit.mkLimits 2 100).
Proof.
  assert (C : RateLimit.hasColon "22222222-2222-4222-8222-222222222222" = false)
    by reflexivity.
  assert (D : "create_poll" <> "vote") by discriminate.
  split; [exact C|].
  exact (rate_limit_pairs_apart "22222222-2222-4222-8222-222222222222"
           "create_poll" "22222222-2222-4222-8222-222222222222" "vote"
           (Some 10%Z) (Some 3600000%Z) 7
           [("22222222-2222-4222-8222-222222222222:vote", RateLimit.mkLimits 2 100)]
           C C (or_intror D)).
Defined.

(** * Routes *)

Lemma startsWith_app (s p : string) :
  Middleware.startsWith s p = true <-> exists rest, s = p ++ rest.
Proof.
  unfold Middleware.startsWith. revert s.
  induction p as [|c p IH]; intros s; cbn [String.append].
  - split; [intros _; exists s; reflexivity | destruct s; reflexivity].
  - destruct s as [|d s]; cbn [String.prefix].
    + split; [discriminate | intros [rest E]; discriminate E].
    + destruct (ascii_dec c d) as [<-|N].
      * rewrite IH. split; intros [rest E]; exists rest.
        -- rewrite E. reflexivity.
        -- injection E as E. exact E.
      * split; [discriminate|]. intros [rest E]. injection E as E1 E2.
        contradiction N. symmetry. exact E1.
Qed.

(** X18.  A request passes the middleware exactly when it comes with a user or
    its pathname begins with /login, /register or /auth; being signed in
    is all that any other route asks, /admin included. *)
Theorem updateSession_passes (auth : AuthResponse) (pathname : string) :
  Middleware.updateSession auth pathname = Middleware.Next
  <-> user auth <> None
      \/ exists rest,
           pathname = "/login" ++ rest
           \/ pathname = "/register" ++ rest
           \/ pathname = "/auth" ++ rest.
Proof.
  unfold Middleware.updateSession.
  assert (P : forall p, (exists rest, pathname = p ++ rest)
                        <-> Middleware.startsWith pathname p = true)
    by (intros p; symmetry; apply startsWith_app).
  destruct (user auth) as [u|]; cbn [Middleware.isSome negb andb].
  - split; [intros _; left; discriminate|].
    intros _. destruct (Middleware.startsWith pathname "/admin"); reflexivity.
  - rewrite andb_false_r.
    destruct (Middleware.startsWith pathname "/login") eqn:L;
      [cbn [orb negb]; split; [intros _|reflexivity];
       right; apply P in L as [rest E]; exists rest; auto|].
    destruct (Middleware.startsWith pathname "/register") eqn:R;
      [cbn [orb negb]; split; [intros _|reflexivity];
       right; apply P in R as [rest E]; exists rest; auto|].
    destruct (Middleware.startsWith pathname "/auth") eqn:A;
      [cbn [orb negb]; split; [intros _|reflexivity];
       right; apply P in A as [rest E]; exists rest; auto|].
    cbn [orb negb]. split; [discriminate|].
    intros [N | [rest [E | [E | E]]]].
    + contradiction N. reflexivity.
    + assert (T : Middleware.startsWith pathname "/login" = true)
        by (apply P; exists rest; exact E).
      rewrite L in T. discriminate T.
    + assert (T : Middleware.startsWith pathname "/register" = true)
        by (apply P; exists rest; exact E).
      rewrite R in T. discriminate T.
    + assert (T : Middleware.startsWith pathname "/auth" = true)
        by (apply P; exists rest; exact E).
      rewrite A in T. discriminate T.
Qed.

(** X19.  A redirect goes to /login and nowhere else, and the request that
    follows it passes: the middleware never redirects twice in a row. *)
Theorem updateSession_redirect_settles (auth : AuthResponse)
  (pathname target : string) :
  Middleware.updateSession auth pathname = Middleware.Redirect target ->
  target = "/login"
  /\ user auth = None
  /\ Middleware.updateSession auth target = Middleware.Next.
Proof.
  unfold Middleware.updateSession.
  destruct (user auth) as [u|]; cbn [Middleware.isSome negb andb].
  - destruct (Middleware.startsWith pathname "/admin"); discriminate.
  - rewrite andb_false_r.
    destruct (negb _); [|discriminate].
    intros [= <-]. repeat split.
Qed.

Lemma updateSession_redirect_settles_witness :
  Middleware.updateSession nobody "/polls/new" = Middleware.Redirect "/login"
  /\ Middleware.updateSession nobody "/login" = Middleware.Next.
Proof.
  assert (H : Middleware.updateSession nobody "/polls/new"
              = Middleware.Redirect "/login") by reflexivity.
  split; [exact H|].
  exact (proj2 (proj2 (updateSession_redirect_settles nobody "/polls/new"
                         "/login" H))).
Defined.

(** * The option list of the form *)

Lemma mapFrom_length (i idx : nat) (value : string) (opts : list string) :
  length (PollCreateForm.mapFrom i idx value opts) = length opts.
Proof.
  revert i. induction opts as [|opt rest IH]; intros i;
    cbn [PollCreateForm.mapFrom length]; [reflexivity|].
  rewrite IH. reflexivity.
Qed.

Lemma filterFrom_length (i idx : nat) (opts : list string) :
  length (PollCreateForm.filterFrom i idx opts)
  = if (i <=? idx)%nat && (idx <? i + length opts)%nat then length opts - 1
    else length opts.
Proof.
  revert i. induction opts as [|opt rest IH]; intros i;
    cbn [PollCreateForm.filterFrom length].
  - destruct (_ && _); reflexivity.
  - destruct (i =? idx)%nat eqn:E; cbn [negb length]; rewrite IH.
    + apply Nat.eqb_eq in E. subst idx.
      replace (S i <=? i)%nat with false by (symmetry; apply Nat.leb_gt; lia).
      replace (i <=? i)%nat with true by (symmetry; apply Nat.leb_le; lia).
      replace (i <? i + S (length rest))%nat with true
        by (symmetry; apply Nat.ltb_lt; lia).
      cbn [andb]. lia.
    + apply Nat.eqb_neq in E.
      destruct (S i <=? idx)%nat eqn:A; destruct (i <=? idx)%nat eqn:B;
        destruct (idx <? S i + length rest)%nat eqn:C;
        destruct (idx <? i + S (length rest))%nat eqn:D; cbn [andb];
        rewrite ?Nat.leb_le, ?Nat.leb_gt, ?Nat.ltb_lt, ?Nat.ltb_ge in *;
        try lia.
Qed.

Lemma handler_at_least_two (e : PollCreateForm.Input) (options : list string) :
  2 <= length options -> 2 <= length (PollCreateForm.handler e options).
Proof.
  intros L. destruct e as [idx value| |idx]; cbn [PollCreateForm.handler].
  - unfold PollCreateForm.handleOptionChange. rewrite mapFrom_length. exact L.
  - unfold PollCreateForm.addOption. rewrite length_app. cbn [length]. lia.
  - unfold PollCreateForm.removeOption.
    destruct (2 <? length options)%nat eqn:G; [|exact L].
    apply Nat.ltb_lt in G. rewrite filterFrom_length.
    destruct (_ && _); lia.
Qed.

(** X20.  Whatever is typed and clicked, in any order and at any index,
    each input handled against the options the one before has left, the
    handlers never leave fewer than two options: [removeOption] keeps the
    minimum by itself, without the help of the hidden button. *)
Theorem handlers_keep_two_options (inputs : list PollCreateForm.Input)
  (options : list string) :
  2 <= length options ->
  2 <= length (PollCreateForm.onHandlers inputs options).
Proof.
  unfold PollCreateForm.onHandlers. revert options.
  induction inputs as [|e rest IH]; intros options L; cbn [fold_left].
  - exact L.
  - apply IH, handler_at_least_two, L.
Qed.

Lemma handlers_keep_two_options_witness :
  2 <= length PollCreateForm.initialOptions
  /\ 2 <= length (PollCreateForm.onHandlers
                    [PollCreateForm.RemoveClicked 0;
                     PollCreateForm.AddClicked;
                     PollCreateForm.RemoveClicked 5;
                     PollCreateForm.RemoveClicked 1;
                     PollCreateForm.RemoveClicked 0]
                    PollCreateForm.initialOptions).
Proof.
  assert (L : 2 <= length PollCreateForm.initialOptions) by (cbn; lia).
  split; [exact L|].
  exact (handlers_keep_two_options _ PollCreateForm.initialOptions L).
Defined.

Lemma handleInput_bounds (e : PollCreateForm.Input) (options : list string) :
  2 <= length options <= 10 ->
  2 <= length (PollCreateForm.handleInput options e) <= 10.
Proof.
  intros [L U]. unfold PollCreateForm.handleInput.
  destruct (PollCreateForm.rendered e options) eqn:R; [|split; assumption].
  split; [apply handler_at_least_two, L|].
  destruct e as [idx value| |idx];
    cbn [PollCreateForm.handler PollCreateForm.rendered] in *.
  - unfold PollCreateForm.handleOptionChange. rewrite mapFrom_length. exact U.
  - unfold PollCreateForm.addOption. rewrite length_app. cbn [length].
    apply negb_true_iff, Nat.leb_gt in R. lia.
  - unfold PollCreateForm.removeOption.
    destruct (2 <? length options)%nat; [|exact U].
    rewrite filterFrom_length. destruct (_ && _); lia.
Qed.

Lemma onForm_bounds (inputs : list PollCreateForm.Input) (options : list string) :
  2 <= length options <= 10 ->
  2 <= length (PollCreateForm.onForm inputs options) <= 10.
Proof.
  unfold PollCreateForm.onForm. revert options.
  induction inputs as [|e rest IH]; intros options B; cbn [fold_left].
  - exact B.
  - apply IH, handleInput_bounds, B.
Qed.

(** X21.  On the form, which starts with two empty options, the option list
    has between two and ten entries after any inputs. *)
Theorem form_has_two_to_ten_options (inputs : list PollCreateForm.Input) :
  2 <= length (PollCreateForm.onForm inputs PollCreateForm.initialOptions) <= 10.
Proof.
  apply onForm_bounds. cbn. lia.
Qed.

Lemma formData_get (question : string) (options : list string) :
  get (PollCreateForm.formData question options) "question" = Some question.
Proof. reflexivity. Qed.

Lemma formData_getAll (question : string) (options : list string) :
  getAll (PollCreateForm.formData question options) "options" = options.
Proof.
  unfold getAll, PollCreateForm.formData.
  cbn [filter fst]. change ("question" =? "options") with false. cbv iota.
  induction options as [|opt rest IH]; [reflexivity|].
  cbn [map filter fst snd]. change ("options" =? "options") with true. cbv iota.
  cbn [map snd]. f_equal. exact IH.
Qed.

Lemma filter_length_le {A : Type} (f : A -> bool) (l : list A) :
  length (filter f l) <= length l.
Proof.
  induction l as [|x l IH]; cbn [filter length]; [lia|].
  destruct (f x); cbn [length]; lia.
Qed.

(** X22.  What the form submits never has more than ten options: whatever the
    question and whatever was typed, added and removed before,
    [createPoll] either gets past its payload checks or answers with one
    of the other five payload messages, never with the one for too many
    options. *)
Theorem form_never_sends_too_many_options (question : string)
  (inputs : list PollCreateForm.Input) :
  createPoll
    (PollCreateForm.formData question
       (PollCreateForm.onForm inputs PollCreateForm.initialOptions))
  = createPollRest
      (PollCreateForm.formData question
         (PollCreateForm.onForm inputs PollCreateForm.initialOptions))
  \/ exists msg,
       In msg [EmptyQuestion; QuestionTooLong; TooFewOptions; EmptyOption;
               OptionTooLong]
       /\ createPoll
            (PollCreateForm.formData question
               (PollCreateForm.onForm inputs PollCreateForm.initialOptions))
          = Ret (fail msg).
Proof.
  assert (U : length (PollCreateForm.onForm inputs PollCreateForm.initialOptions)
              <= 10) by (apply onForm_bounds; cbn; lia).
  set (options := PollCreateForm.onForm inputs PollCreateForm.initialOptions) in *.
  rewrite createPoll_payload.
  unfold payloadReturn, optionsOf. rewrite formData_getAll.
  pose proof (filter_length_le Boolean options) as F.
  destruct (questionMissing _); [right; eexists; split; [|reflexivity]; cbn; auto|].
  destruct (500 <? _)%nat; [right; eexists; split; [|reflexivity]; cbn; auto|].
  destruct (_ <? 2)%nat; [right; eexists; split; [|reflexivity]; cbn; auto|].
  replace (10 <? length (filter Boolean options))%nat with false
    by (symmetry; apply Nat.ltb_ge; lia).
  destruct (forEachOption (filter Boolean options)) as [r|] eqn:E;
    [|left; reflexivity].
  right. apply forEachOption_kinds in E as [-> | ->];
    eexists; (split; [|reflexivity]); cbn; auto 6.
Qed.

Lemma filter_Boolean_good (options : list string) :
  forallb (goodText 200) options = true -> filter Boolean options = options.
Proof.
  induction options as [|opt rest IH]; cbn [forallb filter]; [reflexivity|].
  rewrite andb_true_iff. intros [G R].
  replace (Boolean opt) with true; [rewrite (IH R); reflexivity|].
  symmetry. unfold goodText in G. apply andb_true_iff in G as [G _].
  unfold Boolean. destruct opt; [discriminate G | reflexivity].
Qed.

(** X23.  Once the question and every option on the form have content within
    the limits (at most 500 and 200 characters), the submission passes
    every payload check of [createPoll] and goes on to the identity
    check, whatever was added and removed before. *)
Theorem well_filled_form_passes (question : string)
  (inputs : list PollCreateForm.Input) (options : list string) :
  options = PollCreateForm.onForm inputs PollCreateForm.initialOptions ->
  goodText 500 question = true ->
  forallb (goodText 200) options = true ->
  createPoll (PollCreateForm.formData question options)
  = createPollRest (PollCreateForm.formData question options).
Proof.
  intros E Q O. apply createPoll_valid.
  unfold validPayload, optionsOf. rewrite formData_get, formData_getAll, Q.
  rewrite (filter_Boolean_good _ O), O.
  assert (B : 2 <= length (PollCreateForm.onForm inputs PollCreateForm.initialOptions)
              <= 10) by (apply onForm_bounds; cbn; lia).
  destruct B as [L U]. rewrite <- E in L, U.
  apply Nat.leb_le in L, U. rewrite L, U. reflexivity.
Qed.

Lemma well_filled_form_passes_witness :
  PollCreateForm.onForm
    [PollCreateForm.Typed 0 "red"; PollCreateForm.AddClicked;
     PollCreateForm.Typed 2 "blue"; PollCreateForm.Typed 1 " green";
     PollCreateForm.AddClicked; PollCreateForm.RemoveClicked 3]
    PollCreateForm.initialOptions
  = ["red"; " green"; "blue"]
  /\ createPoll
       (PollCreateForm.formData "Favourite colour?" ["red"; " green"; "blue"])
     = createPollRest
         (PollCreateForm.formData "Favourite colour?" ["red"; " green"; "blue"]).
Proof.
  assert (E : ["red"; " green"; "blue"]
              = PollCreateForm.onForm
                  [PollCreateForm.Typed 0 "red"; PollCreateForm.AddClicked;
                   PollCreateForm.Typed 2 "blue"; PollCreateForm.Typed 1 " green";
                   PollCreateForm.AddClicked; PollCreateForm.RemoveClicked 3]
                  PollCreateForm.initialOptions) by reflexivity.
  split; [symmetry; exact E|].
  exact (well_filled_form_passes "Favourite colour?" _ _ E eq_refl eq_refl).
Defined.

(** * The guide against the actions *)

Lemma guide_forEachOption_None (options : list string) :
  Guide.forEachOption options = None <-> forEachOption options = None.
Proof.
  induction options as [|o rest IH]; cbn [Guide.forEachOption forEachOption];
    [tauto|].
  replace (negb (Boolean (trim o))) with (String.length (trim o) =? 0)%nat
    by (unfold Boolean; destruct (trim o); reflexivity).
  destruct (String.length (trim o) =? 0)%nat; [split; discriminate|].
  destruct (200 <? String.length o)%nat; [split; discriminate|].
  exact IH.
Qed.

Lemma createPollRest_not_Ret (fd : FormData) (r : Result) :
  createPollRest fd <> Ret r.
Proof. unfold createPollRest. discriminate. Qed.

(** X24.  The validators of the guide and the checks of [createPoll] accept the
    same payloads: for form data that has a question, [createPoll] gets
    past its checks to the identity request exactly when
    [validatePollQuestion] and [validatePollOptions] both return null. *)
Theorem guide_validators_accept_the_same (fd : FormData) (q : string) :
  get fd "question" = Some q ->
  (Guide.validatePollQuestion q = None
   /\ Guide.validatePollOptions (optionsOf fd) = None)
  <-> createPoll fd = createPollRest fd.
Proof.
  intros Q. rewrite createPoll_payload.
  assert (P : payloadReturn fd = None
              <-> match payloadReturn fd with
                  | Some r => Ret r
                  | None => createPollRest fd
                  end = createPollRest fd).
  { destruct (payloadReturn fd) as [r|]; [|tauto].
    split; [discriminate|]. intros E. symmetry in E.
    contradiction (createPollRest_not_Ret _ _ E). }
  rewrite <- P. clear P.
  unfold payloadReturn, questionOf, Guide.validatePollQuestion,
    Guide.validatePollOptions, questionMissing, theString.
  rewrite Q.
  destruct (negb (Boolean q) || (String.length (trim q) =? 0)%nat);
    [split; [intros [E _]|]; discriminate|].
  destruct (500 <? String.length q)%nat;
    [split; [intros [E _]|]; discriminate|].
  destruct (length (optionsOf fd) <? 2)%nat;
    [split; [intros [_ E]|]; discriminate|].
  destruct (10 <? length (optionsOf fd))%nat;
    [split; [intros [_ E]|]; discriminate|].
  rewrite guide_forEachOption_None. tauto.
Qed.

Lemma guide_validators_accept_the_same_witness :
  get colours "question" = Some " Favourite colour? "
  /\ ((Guide.validatePollQuestion " Favourite colour? " = None
       /\ Guide.validatePollOptions (optionsOf colours) = None)
      <-> createPoll colours = createPollRest colours).
Proof.
  assert (Q : get colours "question" = Some " Favourite colour? ") by reflexivity.
  split; [exact Q|].
  exact (guide_validators_accept_the_same colours " Favourite colour? " Q).
Defined.

(** X25.  [submitVote]'s bound check is laxer than [validateOptionIndex]: every
    index the guide accepts passes it, and what passes it without being
    accepted by the guide is NaN or a fraction within the range. *)
Theorem validateOptionIndex_is_stricter (n : number) (k : nat) :
  lt n (ofNat 0) || ge n (ofNat k) = false
  <-> Guide.validateOptionIndex n (ofNat k) = true
      \/ n = NaN
      \/ Guide.isInteger n = false /\ inRange n k = true.
Proof.
  unfold Guide.validateOptionIndex.
  destruct n as [| | |q].
  - split; [intros _; right; left; reflexivity | reflexivity].
  - split; [discriminate|].
    intros [H | [H | [_ H]]]; discriminate H.
  - split; [discriminate|].
    intros [H | [H | [_ H]]]; discriminate H.
  - rewrite guard_inRange by discriminate. rewrite negb_false_iff.
    rewrite <- andb_assoc.
    change (ge (Finite q) (ofNat 0) && lt (Finite q) (ofNat k))
      with (inRange (Finite q) k).
    destruct (Guide.isInteger (Finite q)); destruct (inRange (Finite q) k);
      cbn [andb]; split; auto;
      try (intros [H | [H | [H1 H2]]]; discriminate).
Qed.
